(** * Event Directory Service: a shallow embedding of the request handlers

    The repository holds three revisions of one Express application over
    three MongoDB collections ([events], [joinedEvents], [users]).  The
    handlers below follow the revision with user management
    (src/unnamed/part_000, lines 1-1017), which contains every route of the
    other two (src/index.js, and part_000 from line 1018 on); the event and
    join handlers are textually the same in all three.  The places where
    the revisions differ are kept apart:
      - [GET /stats] exists in an [aggregate] + [filter(Boolean)] form
        (part_000, lines 75-110) and in a [distinct] form (src/index.js,
        lines 74-99; part_000, lines 1091-1116);
      - [DELETE /events/:id] is absent from src/index.js, and the [/users]
        routes exist in the first revision of part_000 only;
      - the seed list is the one of part_000, lines 325-528.

    Modelling conventions.
      - A collection is the list of its documents in insertion order.
      - A request field is an optional string: [None] is an absent field
        ([undefined]); the JavaScript truthiness test [!field] is
        [negb (truthy field)].
      - A [Date] is its time value, an integer number of milliseconds;
        every [new Date()] of a handler is an explicit argument.
      - [ObjectId.isValid], [new ObjectId(s)], [Date.parse] and the local
        calendar arithmetic of [Date.prototype.setDate] belong to the
        driver and the JavaScript runtime; they are parameters of the
        development.
      - Handlers run in a state monad over the database that also records
        every call made on a collection.  Store calls are assumed to
        succeed, so the [catch] branches (status 500) are not reachable in
        the model. *)

From Stdlib Require Import ZArith List Ascii String.
From Stdlib Require Import Sorting.Sorted Sorting.Permutation.
From stdpp Require Import base decidable option list strings sorting gmap.

Local Open Scope string_scope.
Local Open Scope list_scope.
Local Open Scope Z_scope.

(** ** Documents *)

(** A BSON ObjectId, identified with the value it wraps. *)
Record ObjectId := Oid { toHexString : string }.

#[global] Instance ObjectId_eq_dec : EqDecision ObjectId.
Proof. solve_decision. Defined.

Module Event.
Record t := mk {
  _id : ObjectId;
  title : string;
  description : string;
  eventType : string;
  thumbnail : string;
  location : string;
  eventDate : Z;
  creatorEmail : string;
  createdAt : Z
}.
#[global] Instance event_eq_dec : EqDecision t.
Proof. solve_decision. Defined.
End Event.

Module Join.
Record t := mk {
  _id : ObjectId;
  eventId : ObjectId;
  userEmail : string;
  joinedAt : Z;
  eventTitle : string;
  eventType : string;
  thumbnail : string;
  location : string;
  eventDate : Z;
  creatorEmail : string
}.
#[global] Instance join_eq_dec : EqDecision t.
Proof. solve_decision. Defined.
End Join.

Module User.
Record t := mk {
  _id : ObjectId;
  email : string;
  displayName : string;
  photoURL : string;
  role : string;
  createdAt : Z;
  updatedAt : Z
}.
#[global] Instance user_eq_dec : EqDecision t.
Proof. solve_decision. Defined.
End User.

(** ** The database and the store calls *)

Record Db := mkDb {
  events : list Event.t;
  joinedEvents : list Join.t;
  users : list User.t
}.

Inductive Collection : Type -> Type :=
  | eventsCollection : Collection Event.t
  | joinedCollection : Collection Join.t
  | usersCollection : Collection User.t.

Definition docs {A} (c : Collection A) (db : Db) : list A :=
  match c in Collection T return list T with
  | eventsCollection => events db
  | joinedCollection => joinedEvents db
  | usersCollection => users db
  end.

Definition set_docs {A} (c : Collection A) (l : list A) (db : Db) : Db :=
  match c in Collection T return list T -> Db with
  | eventsCollection => fun l => mkDb l (joinedEvents db) (users db)
  | joinedCollection => fun l => mkDb (events db) l (users db)
  | usersCollection => fun l => mkDb (events db) (joinedEvents db) l
  end l.

Inductive CollectionName := events_name | joinedEvents_name | users_name.

Definition name_of {A} (c : Collection A) : CollectionName :=
  match c with
  | eventsCollection => events_name
  | joinedCollection => joinedEvents_name
  | usersCollection => users_name
  end.

Inductive Method :=
  | m_findOne | m_find | m_insertOne | m_insertMany | m_updateOne
  | m_deleteOne | m_deleteMany | m_estimatedDocumentCount
  | m_distinct | m_aggregate.

(** One entry per call made on a collection. *)
Definition Call : Type := CollectionName * Method.

(** A handler: from the database to its result, the database it leaves and
    the store calls it made, in order. *)
Definition M (A : Type) : Type := Db -> A * Db * list Call.

#[global] Instance M_ret : MRet M := fun A a db => (a, db, []).

#[global] Instance M_bind : MBind M := fun A B f m db =>
  let '(a, db1, calls1) := m db in
  let '(b, db2, calls2) := f a db1 in
  (b, db2, calls1 ++ calls2).

Definition result {A} (r : A * Db * list Call) : A := r.1.1.
Definition final {A} (r : A * Db * list Call) : Db := r.1.2.
Definition calls {A} (r : A * Db * list Call) : list Call := r.2.

(** *** Pure list operations behind the store calls *)

(** First document matching the filter, in natural order. *)
Fixpoint first_match {A} (q : A -> bool) (l : list A) : option A :=
  match l with
  | [] => None
  | d :: l' => if q d then Some d else first_match q l'
  end.

(** [$set] applied to the first document matching the filter. *)
Fixpoint update_first {A} (q : A -> bool) (set : A -> A) (l : list A)
    : list A :=
  match l with
  | [] => []
  | d :: l' => if q d then set d :: l' else d :: update_first q set l'
  end.

Fixpoint delete_first {A} (q : A -> bool) (l : list A) : list A :=
  match l with
  | [] => []
  | d :: l' => if q d then l' else d :: delete_first q l'
  end.

Definition delete_all {A} (q : A -> bool) (l : list A) : list A :=
  List.filter (fun d => negb (q d)) l.

Definition le_on {A} (key : A -> Z) : relation A :=
  fun a b => key a <= key b.

#[global] Instance le_on_dec {A} (key : A -> Z) : RelDecision (le_on key).
Proof. intros a b. unfold le_on. apply _. Defined.

(** [cursor.sort({ eventDate: 1 })]: ascending on a date key.  The order
    the store gives to documents with equal keys is not specified; none of
    the statements below depends on it. *)
Definition sort_by {A} (key : A -> Z) (l : list A) : list A :=
  merge_sort (le_on key) l.

(** Distinct values of a list, first occurrences kept: the iteration order
    of [new Set(values)]. *)
Fixpoint uniq (seen : list string) (l : list string) : list string :=
  match l with
  | [] => []
  | x :: l' =>
      if bool_decide (x ∈ seen) then uniq seen l' else x :: uniq (x :: seen) l'
  end.

Definition Set_of (l : list string) : list string := uniq [] l.

(** *** The calls *)

Definition findOne {A} (c : Collection A) (q : A -> bool) : M (option A) :=
  fun db => (first_match q (docs c db), db, [(name_of c, m_findOne)]).

Definition find {A} (c : Collection A) (q : A -> bool) : M (list A) :=
  fun db => (List.filter q (docs c db), db, [(name_of c, m_find)]).

Definition insertOne {A} (c : Collection A) (doc : A) : M unit :=
  fun db =>
    (tt, set_docs c (docs c db ++ [doc]) db, [(name_of c, m_insertOne)]).

(** Returns [insertedCount]. *)
Definition insertMany {A} (c : Collection A) (l : list A) : M nat :=
  fun db =>
    (length l, set_docs c (docs c db ++ l) db, [(name_of c, m_insertMany)]).

Record UpdateResult := { matchedCount : nat; modifiedCount : nat }.

Definition updateOne {A} `{EqDecision A} (c : Collection A)
    (q : A -> bool) (set : A -> A) : M UpdateResult :=
  fun db =>
    let r :=
      match first_match q (docs c db) with
      | None => {| matchedCount := 0; modifiedCount := 0 |}
      | Some d =>
          {| matchedCount := 1;
             modifiedCount := if decide (set d = d) then 0%nat else 1%nat |}
      end in
    (r, set_docs c (update_first q set (docs c db)) db,
     [(name_of c, m_updateOne)]).

Definition deleteOne {A} (c : Collection A) (q : A -> bool) : M unit :=
  fun db =>
    (tt, set_docs c (delete_first q (docs c db)) db,
     [(name_of c, m_deleteOne)]).

Definition deleteMany {A} (c : Collection A) (q : A -> bool) : M unit :=
  fun db =>
    (tt, set_docs c (delete_all q (docs c db)) db,
     [(name_of c, m_deleteMany)]).

Definition estimatedDocumentCount {A} (c : Collection A) : M nat :=
  fun db => (length (docs c db), db, [(name_of c, m_estimatedDocumentCount)]).

(** [collection.distinct(field)] on a string field. *)
Definition distinct {A} (c : Collection A) (field : A -> string)
    : M (list string) :=
  fun db => (Set_of (field <$> docs c db), db, [(name_of c, m_distinct)]).

(** [aggregate([{ $group: { _id: "$field" } }, { $project: { _id: 0,
    email: "$_id" } }])]: one row per distinct value of the field. *)
Definition aggregate_group {A} (c : Collection A) (field : A -> string)
    : M (list string) :=
  fun db => (Set_of (field <$> docs c db), db, [(name_of c, m_aggregate)]).

(** ** Requests and responses *)

(** A field of [req.body], [req.params] or [req.query]. *)
Definition Field : Type := option string.

(** [Boolean(v)]: an absent field and the empty string are falsy. *)
Definition truthy (v : Field) : bool :=
  match v with
  | Some (String _ _) => true
  | _ => false
  end.

(** The string carried by a field; on a falsy field this is the empty
    string, which is what the handlers' [v || ...] default to. *)
Definition str (v : Field) : string := default EmptyString v.

(** [req.body], with the fields the handlers destructure. *)
Module Body.
Record t := mk {
  title : Field;
  description : Field;
  eventType : Field;
  thumbnail : Field;
  location : Field;
  eventDate : Field;
  creatorEmail : Field;
  requestorEmail : Field;
  eventId : Field;
  userEmail : Field;
  email : Field;
  displayName : Field;
  photoURL : Field;
  role : Field
}.
Definition empty : t :=
  mk None None None None None None None None None None None None None None.
End Body.

(** The user object of [POST /users/sync] and [GET /users/:email]. *)
Record UserView := {
  view_email : string;
  view_displayName : string;
  view_photoURL : string;
  view_role : string;
  view_createdAt : option Z
}.

(** A document of [GET /users]: the projection
    [{ email, displayName, photoURL, role, createdAt }], with the [_id]
    the store always returns. *)
Record UserRow := {
  row_id : ObjectId;
  row_email : string;
  row_displayName : string;
  row_photoURL : string;
  row_role : string;
  row_createdAt : Z
}.

(** The JSON object a handler sends. *)
Inductive Payload :=
  | Failure (message : string)
  | Created (message : string) (insertedId : ObjectId)
  | EventList (count : nat) (events : list Event.t)
  | EventDoc (event : Event.t)
  | Updated (message : string) (modifiedCount : nat)
  | Done (message : string)
  | JoinedList (count : nat) (joinedEvents : list Join.t)
  | UserDoc (user : UserView)
  | UserList (users : list UserRow)
  | Stats (totalEvents totalUsers totalJoined : nat)
  | Seeded (message : string) (insertedCount : nat).

Record Response := { status : nat; payload : Payload }.

Definition send (code : nat) (p : Payload) : M Response :=
  mret {| status := code; payload := p |}.

(** ** Seed data of [GET /seed-demo-events] (part_000, lines 325-528) *)

Definition demo (title description eventType thumbnail location : string)
    (days : Z) (creatorEmail : string)
    (addDays : Z -> Z) (now : Z) (id : ObjectId) : Event.t :=
  Event.mk id title description eventType thumbnail location
    (addDays days) creatorEmail now.

Definition demoEvents : list ((Z -> Z) -> Z -> ObjectId -> Event.t) := [
    demo "City Park Cleanup Drive"
      "Join us to clean up the city park and make it a cleaner space for everyone. We'll be collecting trash, planting flowers, and beautifying the park area. All volunteers welcome! Bring gloves and water bottles."
      "Cleanup"
      "https://images.unsplash.com/photo-1600596542815-ffad4c1539a9?w=800&h=600&fit=crop&q=80"
      "City Park, Main Gate, Downtown" 3 "demo1@example.com";
    demo "Tree Plantation Day"
      "Plant trees in the community area and help us make the city greener. We'll provide all necessary tools and saplings. Let's work together for a sustainable future! Perfect for families and nature lovers."
      "Plantation"
      "https://images.unsplash.com/photo-1464226184884-fa280b87c399?w=800&h=600&fit=crop&q=80"
      "Community Ground, Sector 5" 7 "demo2@example.com";
    demo "Food Donation for Street Children"
      "Distribute food packs and clothes to underprivileged children. Help us bring smiles to those in need. Your contribution matters! We'll be serving hot meals and distributing essential items."
      "Donation"
      "https://images.unsplash.com/photo-1559027615-cd4628902d4a?w=800&h=600&fit=crop&q=80"
      "Central Bus Stand Area" 10 "demo3@example.com";
    demo "Road Safety Awareness Campaign"
      "Raise awareness about road safety rules among drivers and pedestrians. Educational sessions, demonstrations, and free safety equipment distribution. Learn life-saving road safety tips!"
      "Awareness"
      "https://images.unsplash.com/photo-1559027615-cd4628902d4a?w=800&h=600&fit=crop&q=80"
      "City Square, Near Traffic Signal" 5 "demo4@example.com";
    demo "Free Health Checkup Camp"
      "Free basic health checkup and consultation for low-income families. Blood pressure, sugar level, and general health screening available. Qualified doctors and medical professionals will be present."
      "Health Camp"
      "https://images.unsplash.com/photo-1576091160399-112ba8d25d1f?w=800&h=600&fit=crop&q=80"
      "Community Clinic, Block C" 14 "demo5@example.com";
    demo "Beach Cleanup Initiative"
      "Join us for a beach cleanup to protect marine life. We'll collect plastic waste and debris from the shoreline. Bring your friends and family! Help preserve our beautiful coastline."
      "Cleanup"
      "https://images.unsplash.com/photo-1506905925346-21bda4d32df4?w=800&h=600&fit=crop&q=80"
      "Sunset Beach, Coastal Road" 6 "demo1@example.com";
    demo "Community Garden Project"
      "Help us establish a community garden where neighbors can grow fresh vegetables. Learn gardening techniques and contribute to food security. All skill levels welcome!"
      "Plantation"
      "https://images.unsplash.com/photo-1416879595882-3373a0480b5b?w=800&h=600&fit=crop&q=80"
      "Community Center, Green Valley" 9 "demo2@example.com";
    demo "Winter Clothing Drive"
      "Collect and distribute warm clothing to homeless individuals. Coats, blankets, and winter accessories needed. Let's keep everyone warm this winter! Drop off donations or volunteer to help distribute."
      "Donation"
      "https://images.unsplash.com/photo-1521737604893-d14cc237f11d?w=800&h=600&fit=crop&q=80"
      "Community Hall, Main Street" 12 "demo3@example.com";
    demo "Mental Health Awareness Workshop"
      "Educational workshop on mental health awareness, stress management, and self-care techniques. Open to all community members. Learn valuable coping strategies and support resources."
      "Awareness"
      "https://images.unsplash.com/photo-1506126613408-eca07ce68773?w=800&h=600&fit=crop&q=80"
      "Community Center, Room 201" 8 "demo4@example.com";
    demo "Blood Donation Camp"
      "Organize a blood donation camp in collaboration with local hospital. Your donation can save lives. All donors will receive a certificate and refreshments. Every drop counts!"
      "Health Camp"
      "https://images.unsplash.com/photo-1576091160550-2173dba999ef?w=800&h=600&fit=crop&q=80"
      "City Hospital, Ground Floor" 11 "demo5@example.com";
    demo "Neighborhood Recycling Drive"
      "Promote recycling in our neighborhood. Collect recyclable materials and educate residents about proper waste management practices. Help create a sustainable community!"
      "Cleanup"
      "https://images.unsplash.com/photo-1611974789855-9c2a0a7236a3?w=800&h=600&fit=crop&q=80"
      "Recycling Center, Industrial Area" 13 "demo1@example.com";
    demo "Educational Support Program"
      "Provide free tutoring and educational support to underprivileged students. Help shape the future of our community! Volunteers needed for math, science, and language subjects."
      "Awareness"
      "https://images.unsplash.com/photo-1503676260728-1c00da094a0b?w=800&h=600&fit=crop&q=80"
      "Public Library, Study Hall" 15 "demo2@example.com";
    demo "River Cleanup Project"
      "Help clean up our local river and protect aquatic life. We'll remove trash, debris, and pollutants from the riverbanks. Water safety equipment will be provided."
      "Cleanup"
      "https://images.unsplash.com/photo-1544551763-46a013bb70d5?w=800&h=600&fit=crop&q=80"
      "Riverside Park, North Bridge" 4 "demo1@example.com";
    demo "Urban Forest Development"
      "Create an urban forest in the heart of the city. Plant native trees and learn about urban forestry. This project will improve air quality and provide green spaces for future generations."
      "Plantation"
      "https://images.unsplash.com/photo-1441974231531-c6227db76b6e?w=800&h=600&fit=crop&q=80"
      "Urban Development Zone, Block 7" 16 "demo2@example.com";
    demo "Book Donation Drive"
      "Collect books for underprivileged children and community libraries. Fiction, non-fiction, textbooks, and children's books all welcome. Help spread the joy of reading!"
      "Donation"
      "https://images.unsplash.com/photo-1481627834876-b7833e03f557?w=800&h=600&fit=crop&q=80"
      "Central Library, Main Entrance" 18 "demo3@example.com";
    demo "Digital Literacy Workshop"
      "Teach basic computer skills and internet usage to senior citizens and underprivileged youth. Help bridge the digital divide in our community. All equipment provided."
      "Awareness"
      "https://images.unsplash.com/photo-1522202176988-66273c2fd55f?w=800&h=600&fit=crop&q=80"
      "Community Tech Center, Floor 2" 20 "demo4@example.com";
    demo "Eye Care Screening Camp"
      "Free eye checkup and vision screening for all ages. Glasses distribution for those in need. Professional optometrists will conduct the examinations."
      "Health Camp"
      "https://images.unsplash.com/photo-1576091160550-2173dba999ef?w=800&h=600&fit=crop&q=80"
      "Community Health Center, Main Hall" 17 "demo5@example.com";
    demo "Plastic-Free Community Initiative"
      "Launch a campaign to reduce plastic usage in our community. Educational sessions, reusable bag distribution, and plastic collection drive. Let's make our community plastic-free!"
      "Awareness"
      "https://images.unsplash.com/photo-1621451537084-482c73073a0f?w=800&h=600&fit=crop&q=80"
      "Community Plaza, Central Area" 19 "demo1@example.com"
  ].

(** ** One concrete runtime, used to run the handlers on examples *)

Definition is_hex_digit (a : ascii) : bool :=
  let n := nat_of_ascii a in
  ((48 <=? n) && (n <=? 57) || (65 <=? n) && (n <=? 70)
   || (97 <=? n) && (n <=? 102))%nat.

(** The canonical textual form of an ObjectId: 24 hexadecimal digits. *)
Definition hex24 (s : string) : bool :=
  (String.length s =? 24)%nat && forallb is_hex_digit (list_ascii_of_string s).

(** [Date.parse] on two strings in the ISO format every runtime accepts;
    any other string is taken as unparseable here. *)
Definition iso_sample (s : string) : option Z :=
  if String.eqb s "2030-01-01T00:00:00.000Z" then Some 1893456000000
  else if String.eqb s "2020-01-01T00:00:00.000Z" then Some 1577836800000
  else None.

(** [setDate(getDate() + d)] in a zone without clock changes. *)
Definition utc_addDays (now d : Z) : Z := now + d * 86400000.

(** ** The handlers *)

Section Service.

(** [ObjectId.isValid(s)] and [new ObjectId(s)] of the driver. *)
Variable ObjectId_isValid : string -> bool.
Variable ObjectId_new : string -> ObjectId.
(** The time value of [new Date(s)]; [None] when it is [NaN]. *)
Variable Date_parse : string -> option Z.
(** [addDays now d]: the time value of [now] moved by [d] calendar days. *)
Variable addDays : Z -> Z -> Z.

Set Default Proof Using "Type".

(** The filter [{ _id: new ObjectId(id) }] on events. *)
Definition by_id (id : ObjectId) (e : Event.t) : bool :=
  bool_decide (Event._id e = id).

(** The filter [{ eventId, userEmail }] on joins. *)
Definition same_join (eventId : ObjectId) (userEmail : string) (j : Join.t)
    : bool :=
  bool_decide (Join.eventId j = eventId)
  && bool_decide (Join.userEmail j = userEmail).

Arguments by_id : simpl never.
Arguments same_join : simpl never.

(** [find(q).sort({ eventDate: 1 }).toArray()] *)
Definition find_sorted {A} (c : Collection A) (q : A -> bool) (key : A -> Z)
    : M (list A) :=
  l ← find c q; mret (sort_by key l).

(** [GET /stats], part_000 lines 75-110. *)
Definition compute_statistics : M Response :=
  totalEvents ← estimatedDocumentCount eventsCollection;
  totalJoined ← estimatedDocumentCount joinedCollection;
  creatorEmailsResult ← aggregate_group eventsCollection Event.creatorEmail;
  participantEmailsResult ← aggregate_group joinedCollection Join.userEmail;
  let creatorEmails :=
    List.filter (fun email => truthy (Some email)) creatorEmailsResult in
  let participantEmails :=
    List.filter (fun email => truthy (Some email)) participantEmailsResult in
  let allUserEmails := Set_of (creatorEmails ++ participantEmails) in
  let totalUsers := length allUserEmails in
  send 200 (Stats totalEvents totalUsers totalJoined).

(** [GET /stats], src/index.js lines 74-99. *)
Definition compute_statistics_distinct : M Response :=
  totalEvents ← estimatedDocumentCount eventsCollection;
  totalJoined ← estimatedDocumentCount joinedCollection;
  creatorEmails ← distinct eventsCollection Event.creatorEmail;
  participantEmails ← distinct joinedCollection Join.userEmail;
  let allUserEmails := Set_of (creatorEmails ++ participantEmails) in
  let totalUsers := length allUserEmails in
  send 200 (Stats totalEvents totalUsers totalJoined).

(** The filter [{ email }] on users. *)
Definition by_email (email : Field) (u : User.t) : bool :=
  bool_decide (Some (User.email u) = email).

Arguments by_email : simpl never.

Definition view (u : User.t) (createdAt : option Z) : UserView :=
  {| view_email := User.email u;
     view_displayName := User.displayName u;
     view_photoURL := User.photoURL u;
     view_role := User.role u;
     view_createdAt := createdAt |}.

(** The [$set] of the update branch of [POST /users/sync]: [updatedAt]
    always, [displayName] and [photoURL] when the request carries a truthy
    one. *)
Definition sync_set (displayName photoURL : Field) (now : Z) (u : User.t)
    : User.t :=
  User.mk (User._id u) (User.email u)
    (if truthy displayName then str displayName else User.displayName u)
    (if truthy photoURL then str photoURL else User.photoURL u)
    (User.role u) (User.createdAt u) now.

(** [POST /users/sync], part_000 lines 115-174.  [fresh] is the id the
    driver gives to an inserted document; [now1] and [now2] are the
    successive [new Date()] of the handler (the update branch reads the
    clock once). *)
Definition sync_user (fresh : ObjectId) (now1 now2 : Z) (body : Body.t)
    : M Response :=
  let email := Body.email body in
  let displayName := Body.displayName body in
  let photoURL := Body.photoURL body in
  if negb (truthy email) then send 400 (Failure "Email is required.")
  else
    found ← findOne usersCollection (by_email email);
    user ←
      match found with
      | None =>
          let newUser :=
            User.mk fresh (str email) (str displayName) (str photoURL)
              "user" now1 now2 in
          _ ← insertOne usersCollection newUser;
          mret (Some newUser)
      | Some _ =>
          _ ← updateOne usersCollection (by_email email)
                (sync_set displayName photoURL now1);
          findOne usersCollection (by_email email)
      end;
    match user with
    | Some user => send 200 (UserDoc (view user None))
    | None => send 500 (Failure "Failed to sync user.")
    end.

(** [GET /users/:email], part_000 lines 177-207. *)
Definition get_user (email : string) : M Response :=
  user ← findOne usersCollection (by_email (Some email));
  match user with
  | None => send 404 (Failure "User not found.")
  | Some user => send 200 (UserDoc (view user (Some (User.createdAt user))))
  end.

(** [PATCH /users/:email/role], part_000 lines 210-255. *)
Definition set_user_role (email : string) (now : Z) (body : Body.t)
    : M Response :=
  let role := Body.role body in
  let requestorEmail := Body.requestorEmail body in
  if negb (truthy role)
     || negb (bool_decide (str role ∈ ["user"; "admin"]))
  then send 400 (Failure "Valid role (user or admin) is required.")
  else
    requestor ← findOne usersCollection (by_email requestorEmail);
    if match requestor with
       | None => true
       | Some requestor => bool_decide (User.role requestor ≠ "admin")
       end
    then send 403 (Failure "Only admins can update user roles.")
    else
      result ← updateOne usersCollection (by_email (Some email)) (fun u =>
                 User.mk (User._id u) (User.email u) (User.displayName u)
                   (User.photoURL u) (str role) (User.createdAt u) now);
      if (matchedCount result =? 0)%nat
      then send 404 (Failure "User not found.")
      else send 200 (Done "User role updated successfully.").

Definition projection (u : User.t) : UserRow :=
  {| row_id := User._id u;
     row_email := User.email u;
     row_displayName := User.displayName u;
     row_photoURL := User.photoURL u;
     row_role := User.role u;
     row_createdAt := User.createdAt u |}.

(** [GET /users], part_000 lines 258-294. *)
Definition list_all_users (requestorEmail : Field) : M Response :=
  if negb (truthy requestorEmail)
  then send 400 (Failure "Requestor email is required.")
  else
    requestor ← findOne usersCollection (by_email requestorEmail);
    if match requestor with
       | None => true
       | Some requestor => bool_decide (User.role requestor ≠ "admin")
       end
    then send 403 (Failure "Only admins can view all users.")
    else
      users ← find usersCollection (fun _ => true);
      send 200 (UserList (projection <$> users)).

(** [GET /seed-demo-events], part_000 lines 316-541.  [fresh i] is the id
    given to the [i]-th inserted document. *)
Definition seed_demo_events (fresh : nat -> ObjectId) (now : Z) : M Response :=
  let docs := imap (fun i d => d (addDays now) now (fresh i)) demoEvents in
  insertedCount ← insertMany eventsCollection docs;
  send 200 (Seeded "Demo events inserted successfully." insertedCount).

(** [POST /events], part_000 lines 546-616 (src/index.js 208-278).
    [now] is the [new Date()] compared with the event date, [createdAt]
    the later one stored in the document. *)
Definition create_event (fresh : ObjectId) (now createdAt : Z)
    (body : Body.t) : M Response :=
  let title := Body.title body in
  let description := Body.description body in
  let eventType := Body.eventType body in
  let thumbnail := Body.thumbnail body in
  let location := Body.location body in
  let eventDate := Body.eventDate body in
  let creatorEmail := Body.creatorEmail body in
  if negb (truthy title) || negb (truthy description)
     || negb (truthy eventType) || negb (truthy thumbnail)
     || negb (truthy location) || negb (truthy eventDate)
     || negb (truthy creatorEmail)
  then send 400 (Failure "All fields are required.")
  else
    match Date_parse (str eventDate) with
    | None => send 400 (Failure "Invalid event date.")
    | Some eventDateObj =>
        if eventDateObj <=? now
        then send 400 (Failure "Event date must be a future date.")
        else
          let doc :=
            Event.mk fresh (str title) (str description) (str eventType)
              (str thumbnail) (str location) eventDateObj
              (str creatorEmail) createdAt in
          _ ← insertOne eventsCollection doc;
          send 201 (Created "Event created successfully!" fresh)
    end.

(** [GET /events], part_000 lines 619-639. *)
Definition list_events : M Response :=
  events ← find_sorted eventsCollection (fun _ => true) Event.eventDate;
  send 200 (EventList (length events) events).

(** [GET /events/upcoming], part_000 lines 642-666. *)
Definition list_upcoming_events (now : Z) : M Response :=
  events ← find_sorted eventsCollection
             (fun e => now <? Event.eventDate e) Event.eventDate;
  send 200 (EventList (length events) events).

(** [GET /events/user], part_000 lines 669-697. *)
Definition list_events_by_creator (email : Field) : M Response :=
  if negb (truthy email) then send 400 (Failure "User email is required.")
  else
    events ← find_sorted eventsCollection
               (fun e => bool_decide (Event.creatorEmail e = str email))
               Event.eventDate;
    send 200 (EventList (length events) events).

(** [GET /events/:id], part_000 lines 700-734. *)
Definition get_event (id : string) : M Response :=
  if negb (ObjectId_isValid id) then send 400 (Failure "Invalid event id.")
  else
    event ← findOne eventsCollection (by_id (ObjectId_new id));
    match event with
    | None => send 404 (Failure "Event not found.")
    | Some event => send 200 (EventDoc event)
    end.

(** The [$set] document of [PUT /events/:id]. *)
Definition set_event_fields
    (title description eventType thumbnail location : string)
    (eventDate : Z) (e : Event.t) : Event.t :=
  Event.mk (Event._id e) title description eventType thumbnail location
    eventDate (Event.creatorEmail e) (Event.createdAt e).

(** [PUT /events/:id], part_000 lines 737-842 (src/index.js 399-504). *)
Definition update_event (id : string) (now : Z) (body : Body.t)
    : M Response :=
  let title := Body.title body in
  let description := Body.description body in
  let eventType := Body.eventType body in
  let thumbnail := Body.thumbnail body in
  let location := Body.location body in
  let eventDate := Body.eventDate body in
  let requestorEmail := Body.requestorEmail body in
  if negb (ObjectId_isValid id) then send 400 (Failure "Invalid event id.")
  else if negb (truthy requestorEmail)
  then send 400 (Failure "requestorEmail is required.")
  else
    existing ← findOne eventsCollection (by_id (ObjectId_new id));
    match existing with
    | None => send 404 (Failure "Event not found.")
    | Some existing =>
        if bool_decide (Some (Event.creatorEmail existing) ≠ requestorEmail)
        then send 403 (Failure "You are not allowed to update this event.")
        else if negb (truthy title) || negb (truthy description)
                || negb (truthy eventType) || negb (truthy thumbnail)
                || negb (truthy location) || negb (truthy eventDate)
        then send 400 (Failure "All fields are required.")
        else
          match Date_parse (str eventDate) with
          | None => send 400 (Failure "Invalid event date.")
          | Some eventDateObj =>
              if eventDateObj <=? now
              then send 400 (Failure "Event date must be a future date.")
              else
                result ← updateOne eventsCollection
                           (by_id (ObjectId_new id))
                           (set_event_fields (str title) (str description)
                              (str eventType) (str thumbnail)
                              (str location) eventDateObj);
                send 200 (Updated "Event updated successfully."
                            (modifiedCount result))
          end
    end.

(** The [joinDoc] of [POST /join-event]: the pair, the time of the join
    and a copy of the event's display fields. *)
Definition joinDoc_of (fresh : ObjectId) (joinedAt : Z) (userEmail : string)
    (event : Event.t) : Join.t :=
  Join.mk fresh (Event._id event) userEmail joinedAt (Event.title event)
    (Event.eventType event) (Event.thumbnail event) (Event.location event)
    (Event.eventDate event) (Event.creatorEmail event).

(** [POST /join-event], part_000 lines 847-915 (src/index.js 509-577). *)
Definition join_event (fresh : ObjectId) (joinedAt : Z) (body : Body.t)
    : M Response :=
  let eventId := Body.eventId body in
  let userEmail := Body.userEmail body in
  if negb (truthy eventId) || negb (truthy userEmail)
  then send 400 (Failure "eventId and userEmail are required.")
  else if negb (ObjectId_isValid (str eventId))
  then send 400 (Failure "Invalid eventId.")
  else
    event ← findOne eventsCollection (by_id (ObjectId_new (str eventId)));
    match event with
    | None => send 404 (Failure "Event not found.")
    | Some event =>
        existing ← findOne joinedCollection
                     (same_join (Event._id event) (str userEmail));
        match existing with
        | Some _ => send 400 (Failure "You have already joined this event.")
        | None =>
            let joinDoc := joinDoc_of fresh joinedAt (str userEmail) event in
            _ ← insertOne joinedCollection joinDoc;
            send 201 (Created "You have successfully joined this event." fresh)
        end
    end.

(** [DELETE /events/:id], part_000 lines 918-973. *)
Definition delete_event (id : string) (body : Body.t) : M Response :=
  let requestorEmail := Body.requestorEmail body in
  if negb (ObjectId_isValid id) then send 400 (Failure "Invalid event id.")
  else if negb (truthy requestorEmail)
  then send 400 (Failure "requestorEmail is required.")
  else
    existing ← findOne eventsCollection (by_id (ObjectId_new id));
    match existing with
    | None => send 404 (Failure "Event not found.")
    | Some existing =>
        if bool_decide (Some (Event.creatorEmail existing) ≠ requestorEmail)
        then send 403 (Failure "You are not allowed to delete this event.")
        else
          _ ← deleteOne eventsCollection (by_id (ObjectId_new id));
          _ ← deleteMany joinedCollection (fun j =>
                bool_decide (Join.eventId j = ObjectId_new id));
          send 200 (Done "Event deleted successfully.")
    end.

(** [GET /joined], part_000 lines 976-1005 (src/index.js 580-609). *)
Definition list_joined_events (userEmail : Field) : M Response :=
  if negb (truthy userEmail) then send 400 (Failure "User email is required.")
  else
    joinedEvents ← find_sorted joinedCollection
                     (fun j => bool_decide (Join.userEmail j = str userEmail))
                     Join.eventDate;
    send 200 (JoinedList (length joinedEvents) joinedEvents).

(** *** Requests served one after the other *)

Inductive Request :=
  | GetStats
  | GetStatsDistinct
  | PostUsersSync (fresh : ObjectId) (now1 now2 : Z) (body : Body.t)
  | GetUser (email : string)
  | PatchUserRole (email : string) (now : Z) (body : Body.t)
  | GetUsers (requestorEmail : Field)
  | GetSeedDemoEvents (fresh : nat -> ObjectId) (now : Z)
  | PostEvents (fresh : ObjectId) (now createdAt : Z) (body : Body.t)
  | GetEvents
  | GetEventsUpcoming (now : Z)
  | GetEventsUser (email : Field)
  | GetEvent (id : string)
  | PutEvent (id : string) (now : Z) (body : Body.t)
  | PostJoinEvent (fresh : ObjectId) (joinedAt : Z) (body : Body.t)
  | DeleteEvent (id : string) (body : Body.t)
  | GetJoined (email : Field).

Definition handle (r : Request) : M Response :=
  match r with
  | GetStats => compute_statistics
  | GetStatsDistinct => compute_statistics_distinct
  | PostUsersSync fresh now1 now2 body => sync_user fresh now1 now2 body
  | GetUser email => get_user email
  | PatchUserRole email now body => set_user_role email now body
  | GetUsers requestorEmail => list_all_users requestorEmail
  | GetSeedDemoEvents fresh now => seed_demo_events fresh now
  | PostEvents fresh now createdAt body => create_event fresh now createdAt body
  | GetEvents => list_events
  | GetEventsUpcoming now => list_upcoming_events now
  | GetEventsUser email => list_events_by_creator email
  | GetEvent id => get_event id
  | PutEvent id now body => update_event id now body
  | PostJoinEvent fresh joinedAt body => join_event fresh joinedAt body
  | DeleteEvent id body => delete_event id body
  | GetJoined email => list_joined_events email
  end.

(** ** The error taxonomy and the statements' vocabulary *)

(** The kinds of failure of the specification.  A duplicate join is sent
    with status 400 like a validation failure; its message tells them
    apart. *)
Inductive ErrorKind :=
  | ValidationError | Forbidden | NotFound | Conflict | StoreError.

Definition classify (r : Response) : option ErrorKind :=
  match payload r with
  | Failure message =>
      if (status r =? 400)%nat then
        if String.eqb message "You have already joined this event."
        then Some Conflict else Some ValidationError
      else if (status r =? 403)%nat then Some Forbidden
      else if (status r =? 404)%nat then Some NotFound
      else if (status r =? 500)%nat then Some StoreError
      else None
  | _ => None
  end.

(** [fails k out]: the handler answered with a failure of kind [k]. *)
Definition fails {A : Type} (k : ErrorKind) (out : Response * A) : Prop :=
  classify out.1 = Some k.

(** The id string [id] is accepted by the driver and denotes the [_id] of
    the document [e]. *)
Definition id_of (id : string) (e : Event.t) : Prop :=
  ObjectId_isValid id = true /\ ObjectId_new id = Event._id e.

(** The unique index the store keeps on [_id]. *)
Definition ids_unique (db : Db) : Prop :=
  NoDup (Event._id <$> events db).

(** No stored document carries an empty email. *)
Definition emails_present (db : Db) : Prop :=
  (forall e, e ∈ events db -> Event.creatorEmail e <> EmptyString)
  /\ (forall j, j ∈ joinedEvents db -> Join.userEmail j <> EmptyString).

Definition join_key (j : Join.t) : ObjectId * string :=
  (Join.eventId j, Join.userEmail j).

(** At most one Join per (eventId, userEmail) pair. *)
Definition joins_unique (db : Db) : Prop :=
  NoDup (join_key <$> joinedEvents db).

(** The ids the driver generates for inserted events are new. *)
Definition fresh_for (db : Db) (r : Request) : Prop :=
  match r with
  | PostEvents fresh _ _ _ => fresh ∉ (Event._id <$> events db)
  | GetSeedDemoEvents fresh _ =>
      NoDup (fresh <$> seq 0 (length demoEvents))
      /\ forall i, (i < length demoEvents)%nat ->
                   fresh i ∉ (Event._id <$> events db)
  | _ => True
  end.

(** The databases reached from [db0] by serving requests in sequence. *)
Inductive reachable_from (db0 : Db) : Db -> Prop :=
  | reach_here : reachable_from db0 db0
  | reach_step db r :
      reachable_from db0 db -> fresh_for db r ->
      reachable_from db0 (handle r db).1.2.

Definition empty_db : Db := mkDb [] [] [].

(** Following the specification of [compute_statistics]: the cardinality
    of the set union of all creatorEmail values across Events and all
    userEmail values across Joins. *)
Definition union_cardinality (db : Db) : nat :=
  size (list_to_set (Event.creatorEmail <$> events db)
        ∪ list_to_set (Join.userEmail <$> joinedEvents db) : gset string).

(** The same union over the non-empty emails only. *)
Definition nonempty_union_cardinality (db : Db) : nat :=
  size (list_to_set
          (List.filter (fun s => truthy (Some s))
             (Event.creatorEmail <$> events db))
        ∪ list_to_set
            (List.filter (fun s => truthy (Some s))
               (Join.userEmail <$> joinedEvents db)) : gset string).

Definition totalUsers_of (r : Response) : option nat :=
  match payload r with
  | Stats _ totalUsers _ => Some totalUsers
  | _ => None
  end.

(** The user a given email resolves to. *)
Definition user_of (email : Field) (db : Db) : option User.t :=
  first_match (by_email email) (users db).

(** [email] resolves to an existing User whose role is "admin". *)
Definition resolves_to_admin (email : Field) (db : Db) : bool :=
  match user_of email db with
  | Some u => bool_decide (User.role u = "admin")
  | None => false
  end.

(** Following the specification of [set_user_role]: the failure it must
    end in, if any. *)
Definition set_user_role_outcome (targetEmail : string) (newRole : Field)
    (requestorEmail : Field) (db : Db) : option ErrorKind :=
  if negb (bool_decide (newRole = Some "user" \/ newRole = Some "admin"))
  then Some ValidationError
  else if negb (resolves_to_admin requestorEmail db)
  then Some Forbidden
  else if bool_decide (user_of (Some targetEmail) db = None)
  then Some NotFound
  else None.

Definition events_of (r : Response) : list Event.t :=
  match payload r with
  | EventList _ events => events
  | _ => []
  end.

Definition joins_of (r : Response) : list Join.t :=
  match payload r with
  | JoinedList _ joinedEvents => joinedEvents
  | _ => []
  end.

(** ** Sample documents *)

Definition id_E : string := "64b7f0c2a1d3e4f5a6b7c8d9".
Definition id_F : string := "64b7f0c2a1d3e4f5a6b7c8da".

Definition alice_event : Event.t :=
  Event.mk (Oid id_E) "Park cleanup" "Bring gloves." "Cleanup"
    "https://example.com/park.png" "City Park" 1893456000000
    "alice@x.com" 1700000000000.

Definition carol_join : Join.t :=
  Join.mk (Oid "64b7f0c2a1d3e4f5a6b7c8e0") (Oid id_E) "carol@x.com"
    1700000001000 "Park cleanup" "Cleanup" "https://example.com/park.png"
    "City Park" 1893456000000 "alice@x.com".

Definition root_user : User.t :=
  User.mk (Oid "64b7f0c2a1d3e4f5a6b7c8f0") "root@x.com" "Root" EmptyString
    "admin" 1600000000000 1600000000000.

Definition dave_user : User.t :=
  User.mk (Oid "64b7f0c2a1d3e4f5a6b7c8f1") "dave@x.com" "Dave" EmptyString
    "user" 1600000000000 1600000000000.

(** An event document whose creatorEmail is empty; no handler stores one. *)
Definition blank_event : Event.t :=
  Event.mk (Oid id_F) "Untitled" "None." "Cleanup"
    "https://example.com/blank.png" "Nowhere" 1893456000000 EmptyString
    1700000000000.

(** Ids for a batch of inserted documents, one letter each. *)
Definition batch_id (i : nat) : ObjectId :=
  Oid (String (ascii_of_nat (97 + i)) EmptyString).

Definition sample_db : Db :=
  mkDb [alice_event] [carol_join] [root_user; dave_user].

Definition event_body (requestor date : Field) : Body.t :=
  Body.mk (Some "Park cleanup, again") (Some "Bring gloves and bags.")
    (Some "Cleanup") (Some "https://example.com/park2.png")
    (Some "City Park, north gate") date (Some "alice@x.com") requestor
    None None None None None None.

Definition join_body (eventId userEmail : Field) : Body.t :=
  Body.mk None None None None None None None None eventId userEmail
    None None None None.

Definition role_body (role requestor : Field) : Body.t :=
  Body.mk None None None None None None None requestor None None
    None None None role.

Definition sync_body (email displayName photoURL : Field) : Body.t :=
  Body.mk None None None None None None None None None None
    email displayName photoURL None.

(** [eventDate] is unparseable as a date, or parses to a time that is not
    after [now]. *)
Definition bad_date (now : Z) (eventDate : Field) : Prop :=
  match Date_parse (str eventDate) with
  | None => True
  | Some d => d <= now
  end.

(** The checks [update_event] makes before it looks at the date, in the
    order of the handler: the failure they end in, if any. *)
Definition update_precheck (id : string) (body : Body.t) (db : Db)
    : option ErrorKind :=
  if negb (ObjectId_isValid id) then Some ValidationError
  else if negb (truthy (Body.requestorEmail body)) then Some ValidationError
  else
    match first_match (by_id (ObjectId_new id)) (events db) with
    | None => Some NotFound
    | Some existing =>
        if bool_decide (Some (Event.creatorEmail existing)
                        <> Body.requestorEmail body)
        then Some Forbidden else None
    end.

(** ** The server around the handlers *)

(** [initDb] (part_000 lines 28-52).  [uri] is [process.env.MONGO_URI];
    [connect] is what building the client and [client.connect()] do:
    [None] when they succeed, the message of the error they throw
    otherwise.  The result is the message of the error thrown, if any, and
    the new value of [isDbReady]. *)
Definition initDb (uri : Field) (connect : option string) (isDbReady : bool)
    : option string * bool :=
  if isDbReady then (None, true)
  else if negb (truthy uri)
  then (Some "MONGO_URI is not set in environment variables.", false)
  else
    match connect with
    | Some message => (Some message, false)
    | None => (None, true)
    end.

(** The routes of the application: the two that are no part of
    [Request], and those. *)
Inductive Route :=
  | GetRoot
  | GetTestDb
  | Api (r : Request).

(** What the server sends. *)
Inductive Served :=
  | Text (body : string)
  | Probe (message : string) (totalEvents : nat)
  | Json (r : Response)
  | InitFailure (r : Response) (error : string).

(** The route handlers behind the middleware.  [GET /test-db] pings the
    database, which is no call on a collection, and counts the events
    (part_000 lines 297-314). *)
Definition route (rt : Route) : M Served :=
  match rt with
  | GetRoot => mret (Text "Social Development Events API is running.")
  | GetTestDb =>
      count ← estimatedDocumentCount eventsCollection;
      mret (Probe "MongoDB is working" count)
  | Api r => res ← handle r; mret (Json res)
  end.

(** The middleware in front of every route (part_000 lines 55-67),
    followed by the route when it calls [next()]. *)
Definition serve (uri : Field) (connect : option string) (isDbReady : bool)
    (rt : Route) : M (Served * bool) :=
  match initDb uri connect isDbReady with
  | (None, ready) => s ← route rt; mret (s, ready)
  | (Some error, ready) =>
      mret (InitFailure
              {| status := 500;
                 payload := Failure "Database initialization failed." |}
              error, ready)
  end.

(** ** More vocabulary *)

(** The six fields [create_event] and [update_event] both require. *)
Definition event_fields_present (body : Body.t) : bool :=
  truthy (Body.title body) && truthy (Body.description body)
  && truthy (Body.eventType body) && truthy (Body.thumbnail body)
  && truthy (Body.location body) && truthy (Body.eventDate body).

(** The document [create_event] inserts for a date that parses to [d]. *)
Definition event_doc (fresh : ObjectId) (createdAt : Z) (body : Body.t)
    (d : Z) : Event.t :=
  Event.mk fresh (str (Body.title body)) (str (Body.description body))
    (str (Body.eventType body)) (str (Body.thumbnail body))
    (str (Body.location body)) d (str (Body.creatorEmail body)) createdAt.

(** An email identifies at most one User. *)
Definition users_unique (db : Db) : Prop :=
  NoDup (User.email <$> users db).

(** No stored User is an admin. *)
Definition no_admin (db : Db) : Prop :=
  forall u, u ∈ users db -> User.role u <> "admin".

(** Every Join refers to a stored Event. *)
Definition joins_refer (db : Db) : Prop :=
  forall j, j ∈ joinedEvents db -> Join.eventId j ∈ Event._id <$> events db.

(** The store methods that only read. *)
Definition is_read (m : Method) : bool :=
  match m with
  | m_findOne | m_find | m_estimatedDocumentCount | m_distinct
  | m_aggregate => true
  | _ => false
  end.

(** The requests of the routes that only query. *)
Definition is_query (r : Request) : bool :=
  match r with
  | GetStats | GetStatsDistinct | GetUser _ | GetUsers _ | GetEvents
  | GetEventsUpcoming _ | GetEventsUser _ | GetEvent _ | GetJoined _ => true
  | _ => false
  end.

Definition users_of (r : Response) : list UserRow :=
  match payload r with
  | UserList users => users
  | _ => []
  end.

(** A database whose only User is dave, who is no admin. *)
Definition dave_only_db : Db := mkDb [] [] [dave_user].

(** * Properties *)

(** [tauto] on a goal that does not mention the runtime's functions. *)
Ltac tauto_closed :=
  try clear addDays; try clear Date_parse; try clear ObjectId_new;
  try clear ObjectId_isValid; tauto.

(** ** Lists behind the store calls *)

Lemma first_match_Some {A} (q : A -> bool) l d :
  first_match q l = Some d -> d ∈ l /\ q d = true.
Proof.
  induction l as [|x l IH]; simpl; [discriminate|].
  destruct (q x) eqn:Hq.
  - intros [= ->]. split; [left | done].
  - intros H. destruct (IH H). split; [by right | done].
Qed.

Lemma first_match_None {A} (q : A -> bool) l :
  first_match q l = None <-> forall d, d ∈ l -> q d = false.
Proof.
  induction l as [|x l IH]; simpl.
  - split; [intros _ d Hd; inversion Hd | done].
  - destruct (q x) eqn:Hq.
    + split; [discriminate|]. intros H.
      specialize (H x (list_elem_of_here _ _)).
      congruence.
    + rewrite IH. split.
      * intros H d Hd. inversion Hd; subst; auto.
      * intros H d Hd. apply H. by right.
Qed.

Lemma update_first_no_match {A} (q : A -> bool) set l :
  first_match q l = None -> update_first q set l = l.
Proof.
  induction l as [|x l IH]; simpl; [done|].
  destruct (q x); [discriminate|]. intros H. by rewrite IH.
Qed.

(** ** Malformed ids *)

Ltac unfold_store :=
  unfold send, findOne, find, find_sorted, insertOne, insertMany, updateOne,
    deleteOne, deleteMany, estimatedDocumentCount, distinct, aggregate_group,
    mbind, mret, M_bind, M_ret.

(** C10.  An id string that the driver does not accept makes [get_event],
    [update_event], [delete_event] and [join_event] answer 400, a
    ValidationError and not NotFound, with no call made on any collection
    and the database left as it was. *)
Theorem invalid_id_is_a_validation_error (id : string) (db : Db) :
  ObjectId_isValid id = false ->
  (get_event id db
     = ({| status := 400; payload := Failure "Invalid event id." |}, db, []))
  /\ (forall now body,
        update_event id now body db
        = ({| status := 400; payload := Failure "Invalid event id." |}, db, []))
  /\ (forall body,
        delete_event id body db
        = ({| status := 400; payload := Failure "Invalid event id." |}, db, []))
  /\ (forall fresh joinedAt body,
        Body.eventId body = Some id ->
        exists message,
          join_event fresh joinedAt body db
          = ({| status := 400; payload := Failure message |}, db, [])
          /\ fails ValidationError (join_event fresh joinedAt body db).1).
Proof.
  intros Hid. repeat split.
  - unfold get_event. by rewrite Hid.
  - intros. unfold update_event. by rewrite Hid.
  - intros. unfold delete_event. by rewrite Hid.
  - intros fresh joinedAt body Hbody. unfold join_event. rewrite Hbody.
    destruct (negb (truthy (Some id)) || negb (truthy (Body.userEmail body)))
      eqn:Hreq.
    + eexists. split; [reflexivity | reflexivity].
    + change (str (Some id)) with id. rewrite Hid. eexists. split; reflexivity.
Qed.

(** ** Documents found through their unique [_id] *)

Lemma by_id_true i e : by_id i e = true <-> Event._id e = i.
Proof. unfold by_id. apply bool_decide_eq_true. Qed.

Lemma by_id_false i e : by_id i e = false <-> Event._id e <> i.
Proof. unfold by_id. apply bool_decide_eq_false. Qed.

Lemma first_match_by_id (l : list Event.t) e :
  NoDup (Event._id <$> l) -> e ∈ l ->
  first_match (by_id (Event._id e)) l = Some e.
Proof.
  induction l as [|x l IH]; simpl; intros Hnd He; [inversion He|].
  apply NoDup_cons in Hnd as [Hx Hnd].
  destruct (by_id (Event._id e) x) eqn:Hq.
  - apply by_id_true in Hq.
    apply elem_of_cons in He as [->|He]; [done|].
    exfalso. apply Hx. rewrite Hq. by apply list_elem_of_fmap_2.
  - apply elem_of_cons in He as [->|He]; [|by apply IH].
    apply by_id_false in Hq. done.
Qed.

Lemma stored_event_found db id e :
  ids_unique db -> e ∈ events db -> id_of id e ->
  first_match (by_id (ObjectId_new id)) (events db) = Some e.
Proof. intros Hu He [_ ->]. by apply first_match_by_id. Qed.

(** ** Ownership *)

Lemma truthy_Some r : r <> EmptyString -> truthy (Some r) = true.
Proof. by destruct r. Qed.

Lemma truthy_str v :
  truthy v = true -> v = Some (str v) /\ str v <> EmptyString.
Proof. destruct v as [[|a s]|]; simpl; try discriminate. done. Qed.

(** C1, as the handlers implement it.  For every stored Event [e] and
    every non-empty requestorEmail [r] different from [e]'s creatorEmail,
    [update_event] and [delete_event] on [e]'s id answer 403 Forbidden
    after one lookup and leave the database as it was.  An absent or empty
    requestorEmail is turned down earlier, with 400 and no lookup. *)
Theorem non_creator_is_forbidden (db : Db) (e : Event.t) (id r : string) :
  ids_unique db -> e ∈ events db -> id_of id e ->
  r <> Event.creatorEmail e ->
  (r <> EmptyString ->
   (forall now body,
      Body.requestorEmail body = Some r ->
      update_event id now body db
      = ({| status := 403;
            payload := Failure "You are not allowed to update this event." |},
         db, [(events_name, m_findOne)]))
   /\ (forall body,
         Body.requestorEmail body = Some r ->
         delete_event id body db
         = ({| status := 403;
               payload :=
                 Failure "You are not allowed to delete this event." |},
            db, [(events_name, m_findOne)])))
  /\ (forall now body,
        truthy (Body.requestorEmail body) = false ->
        update_event id now body db
        = ({| status := 400;
              payload := Failure "requestorEmail is required." |},
           db, [])
        /\ delete_event id body db
           = ({| status := 400;
                 payload := Failure "requestorEmail is required." |}, db, [])).
Proof.
  intros Hu He Hid Hne.
  pose proof (stored_event_found _ _ _ Hu He Hid) as Hfind.
  destruct Hid as [Hvalid _]. split.
  - intros Hr. split.
    + intros now body Hbody. unfold update_event. rewrite Hvalid, Hbody.
      rewrite (truthy_Some _ Hr). unfold_store. cbn. rewrite Hfind.
      rewrite bool_decide_eq_true_2; [done | congruence].
    + intros body Hbody. unfold delete_event. rewrite Hvalid, Hbody.
      rewrite (truthy_Some _ Hr). unfold_store. cbn. rewrite Hfind.
      rewrite bool_decide_eq_true_2; [done | congruence].
  - intros now body Hfalsy. unfold update_event, delete_event.
    by rewrite Hvalid, Hfalsy.
Qed.

(** ** Role changes *)

Lemma role_check (role : Field) :
  negb (truthy role) || negb (bool_decide (str role ∈ ["user"; "admin"]))
  = negb (bool_decide (role = Some "user" \/ role = Some "admin")).
Proof.
  apply eq_true_iff_eq.
  rewrite orb_true_iff, !negb_true_iff, !bool_decide_eq_false,
    !elem_of_cons, elem_of_nil.
  destruct role as [s|].
  - change (str (Some s)) with s. split.
    + intros [Hs|Hs] [[= ->]|[= ->]]; solve [discriminate Hs | tauto_closed].
    + intros H. right. intros [->|[->|[]]]; tauto_closed.
  - split; [intros _ [|]; discriminate | by left].
Qed.

Lemma admin_check (requestor : option User.t) :
  match requestor with
  | None => true
  | Some requestor => bool_decide (User.role requestor <> "admin")
  end
  = negb match requestor with
         | Some u => bool_decide (User.role u = "admin")
         | None => false
         end.
Proof.
  destruct requestor as [u|]; [|done].
  repeat case_bool_decide; done.
Qed.

(** C2.  [set_user_role] ends in the failure the specification asks for:
    ValidationError when newRole is neither "user" nor "admin"; otherwise
    Forbidden when requestorEmail does not resolve to a User whose role is
    "admin"; otherwise NotFound when targetEmail resolves to no User;
    otherwise it succeeds.  Whenever it fails, the database, hence every
    User's role and updatedAt, is the one it started from. *)
Theorem set_user_role_failures (email : string) (now : Z) (body : Body.t)
    (db : Db) :
  classify (set_user_role email now body db).1.1
  = set_user_role_outcome email (Body.role body) (Body.requestorEmail body) db
  /\ (status (set_user_role email now body db).1.1 <> 200%nat ->
      (set_user_role email now body db).1.2 = db)
  /\ (set_user_role_outcome email (Body.role body)
        (Body.requestorEmail body) db = None ->
      status (set_user_role email now body db).1.1 = 200%nat).
Proof.
  unfold set_user_role, set_user_role_outcome. rewrite role_check.
  destruct (bool_decide (Body.role body = Some "user"
                         \/ Body.role body = Some "admin")); simpl;
    [|by repeat split].
  unfold_store. cbn. rewrite admin_check. unfold resolves_to_admin, user_of.
  destruct (match first_match (by_email (Body.requestorEmail body)) (users db)
            with Some u => bool_decide (User.role u = "admin") | None => false
            end); simpl; [|by repeat split].
  destruct (first_match (by_email (Some email)) (users db)) as [u|] eqn:Hu;
    simpl.
  - by repeat split.
  - rewrite (update_first_no_match _ _ _ Hu).
    by destruct db.
Qed.

(** ** Joining twice *)

Lemma same_join_true i u j :
  same_join i u j = true <-> join_key j = (i, u).
Proof.
  unfold same_join, join_key.
  rewrite andb_true_iff, !bool_decide_eq_true. split.
  - by intros [-> ->].
  - by intros [= -> ->].
Qed.

Lemma first_match_exists {A} (q : A -> bool) l d :
  d ∈ l -> q d = true -> exists d', first_match q l = Some d'.
Proof.
  intros Hd Hq. destruct (first_match q l) as [d'|] eqn:H; [eauto|].
  rewrite first_match_None in H. rewrite (H d Hd) in Hq. discriminate.
Qed.

(** A join request for a pair that already has a Join is turned down with
    the duplicate message, after the two lookups, and writes nothing. *)
Lemma join_event_duplicate (db : Db) (id u : string) (e : Event.t)
    (j : Join.t) (fresh : ObjectId) (joinedAt : Z) (body : Body.t) :
  Body.eventId body = Some id -> Body.userEmail body = Some u ->
  id <> EmptyString -> u <> EmptyString -> ObjectId_isValid id = true ->
  first_match (by_id (ObjectId_new id)) (events db) = Some e ->
  j ∈ joinedEvents db -> join_key j = (ObjectId_new id, u) ->
  join_event fresh joinedAt body db
  = ({| status := 400;
        payload := Failure "You have already joined this event." |},
     db, [(events_name, m_findOne); (joinedEvents_name, m_findOne)]).
Proof.
  intros Hid Hu Hid0 Hu0 Hvalid Hfind Hj Hkey.
  unfold join_event. rewrite Hid, Hu, !truthy_Some by done.
  change (str (Some id)) with id. change (str (Some u)) with u.
  rewrite Hvalid. unfold_store. cbn. rewrite Hfind.
  destruct (first_match_Some _ _ _ Hfind) as [_ He%by_id_true].
  destruct (first_match_exists (same_join (Event._id e) u) _ j Hj) as [j' ->];
    [|done].
  apply same_join_true. by rewrite He.
Qed.

(** What a join request does to the database: nothing, unless it answers
    201, in which case it appends one Join for a pair that had none. *)
Lemma join_event_effect (db : Db) (fresh : ObjectId) (joinedAt : Z)
    (body : Body.t) :
  (status (join_event fresh joinedAt body db).1.1 <> 201%nat
   /\ (join_event fresh joinedAt body db).1.2 = db)
  \/ (exists id u e,
        Body.eventId body = Some id /\ Body.userEmail body = Some u
        /\ id <> EmptyString /\ u <> EmptyString /\ ObjectId_isValid id = true
        /\ first_match (by_id (ObjectId_new id)) (events db) = Some e
        /\ first_match (same_join (Event._id e) u) (joinedEvents db) = None
        /\ status (join_event fresh joinedAt body db).1.1 = 201%nat
        /\ (join_event fresh joinedAt body db).1.2
           = mkDb (events db)
               (joinedEvents db ++ [joinDoc_of fresh joinedAt u e])
               (users db)).
Proof.
  unfold join_event.
  destruct (truthy (Body.eventId body)) eqn:Hid; [|by left].
  destruct (truthy (Body.userEmail body)) eqn:Hu; [|by left].
  apply truthy_str in Hid as [Hid Hid0]. apply truthy_str in Hu as [Hu Hu0].
  cbn [negb orb].
  destruct (ObjectId_isValid (str (Body.eventId body))) eqn:Hvalid;
    [|by left].
  unfold_store. cbn.
  destruct (first_match (by_id _) (events db)) as [e|] eqn:Hfind;
    [|by left; destruct db].
  cbn.
  destruct (first_match (same_join _ _) (joinedEvents db)) as [j|] eqn:Hj;
    [by left; destruct db|].
  right. exists (str (Body.eventId body)), (str (Body.userEmail body)), e.
  done.
Qed.

(** ** What the writing handlers do to the database *)

Lemma create_event_effect (db : Db) (fresh : ObjectId) (now createdAt : Z)
    (body : Body.t) :
  (create_event fresh now createdAt body db).1.2 = db
  /\ (create_event fresh now createdAt body db).2 = []
  /\ status (create_event fresh now createdAt body db).1.1 = 400%nat
  /\ fails ValidationError (create_event fresh now createdAt body db).1
  \/ exists d,
       Date_parse (str (Body.eventDate body)) = Some d /\ now < d
       /\ str (Body.creatorEmail body) <> EmptyString
       /\ status (create_event fresh now createdAt body db).1.1 = 201%nat
       /\ (create_event fresh now createdAt body db).1.2
          = mkDb (events db
                  ++ [Event.mk fresh (str (Body.title body))
                        (str (Body.description body))
                        (str (Body.eventType body))
                        (str (Body.thumbnail body))
                        (str (Body.location body)) d
                        (str (Body.creatorEmail body)) createdAt])
              (joinedEvents db) (users db).
Proof.
  unfold create_event.
  destruct (truthy (Body.title body)); [|by left].
  destruct (truthy (Body.description body)); [|by left].
  destruct (truthy (Body.eventType body)); [|by left].
  destruct (truthy (Body.thumbnail body)); [|by left].
  destruct (truthy (Body.location body)); [|by left].
  destruct (truthy (Body.eventDate body)); [|by left].
  destruct (truthy (Body.creatorEmail body)) eqn:Hc; [|by left].
  apply truthy_str in Hc as [_ Hc]. cbn [negb orb].
  destruct (Date_parse (str (Body.eventDate body))) as [d|]; [|by left].
  destruct (d <=? now) eqn:Hd; [by left|].
  apply Z.leb_gt in Hd. right. exists d. unfold_store. cbn. done.
Qed.

Lemma update_event_effect (db : Db) (id : string) (now : Z) (body : Body.t) :
  (update_event id now body db).1.2 = db
  /\ status (update_event id now body db).1.1 <> 200%nat
  \/ exists e d,
       ObjectId_isValid id = true
       /\ first_match (by_id (ObjectId_new id)) (events db) = Some e
       /\ Body.requestorEmail body = Some (Event.creatorEmail e)
       /\ Date_parse (str (Body.eventDate body)) = Some d /\ now < d
       /\ status (update_event id now body db).1.1 = 200%nat
       /\ (update_event id now body db).1.2
          = mkDb (update_first (by_id (ObjectId_new id))
                    (set_event_fields (str (Body.title body))
                       (str (Body.description body))
                       (str (Body.eventType body))
                       (str (Body.thumbnail body))
                       (str (Body.location body)) d)
                    (events db))
              (joinedEvents db) (users db).
Proof.
  unfold update_event.
  destruct (ObjectId_isValid id) eqn:Hvalid; [|by left].
  destruct (truthy (Body.requestorEmail body)); [|by left].
  unfold_store. cbn.
  destruct (first_match (by_id _) (events db)) as [e|] eqn:Hfind;
    [|by left; destruct db].
  case_bool_decide as Hown; [by left; destruct db|].
  symmetry in Hown.
  destruct (truthy (Body.title body)); [|by left; destruct db].
  destruct (truthy (Body.description body)); [|by left; destruct db].
  destruct (truthy (Body.eventType body)); [|by left; destruct db].
  destruct (truthy (Body.thumbnail body)); [|by left; destruct db].
  destruct (truthy (Body.location body)); [|by left; destruct db].
  destruct (truthy (Body.eventDate body)); [|by left; destruct db].
  cbn [negb orb].
  destruct (Date_parse (str (Body.eventDate body))) as [d|];
    [|by left; destruct db].
  destruct (d <=? now) eqn:Hd; [by left; destruct db|].
  apply Z.leb_gt in Hd. right. exists e, d. cbn. done.
Qed.

Lemma delete_event_effect (db : Db) (id : string) (body : Body.t) :
  (delete_event id body db).1.2 = db
  /\ status (delete_event id body db).1.1 <> 200%nat
  \/ exists e,
       ObjectId_isValid id = true
       /\ first_match (by_id (ObjectId_new id)) (events db) = Some e
       /\ Body.requestorEmail body = Some (Event.creatorEmail e)
       /\ status (delete_event id body db).1.1 = 200%nat
       /\ (delete_event id body db).1.2
          = mkDb (delete_first (by_id (ObjectId_new id)) (events db))
              (delete_all
                 (fun j => bool_decide (Join.eventId j = ObjectId_new id))
                 (joinedEvents db))
              (users db).
Proof.
  unfold delete_event.
  destruct (ObjectId_isValid id) eqn:Hvalid; [|by left].
  destruct (truthy (Body.requestorEmail body)); [|by left].
  unfold_store. cbn.
  destruct (first_match (by_id _) (events db)) as [e|] eqn:Hfind;
    [|by left; destruct db].
  case_bool_decide as Hown; [by left; destruct db|].
  symmetry in Hown.
  right. exists e. cbn. done.
Qed.

(** ** Event dates *)

Lemma first_match_update_first {A} (q : A -> bool) set l d :
  first_match q l = Some d -> q (set d) = true ->
  first_match q (update_first q set l) = Some (set d).
Proof.
  induction l as [|x l IH]; simpl; [discriminate|].
  destruct (q x) eqn:Hq.
  - intros [= ->] Hset. simpl. by rewrite Hset.
  - intros H Hset. simpl. rewrite Hq. by apply IH.
Qed.

Lemma by_id_set_event_fields i t d ty th l dt e :
  by_id i (set_event_fields t d ty th l dt e) = by_id i e.
Proof. done. Qed.

Lemma create_event_bad_date (db : Db) fresh now createdAt body :
  bad_date now (Body.eventDate body) ->
  (create_event fresh now createdAt body db).1.2 = db
  /\ (create_event fresh now createdAt body db).2 = []
  /\ status (create_event fresh now createdAt body db).1.1 = 400%nat
  /\ fails ValidationError (create_event fresh now createdAt body db).1.
Proof.
  intros Hbad.
  destruct (create_event_effect db fresh now createdAt body)
    as [H|(d & Hd & Hlt & _)]; [done|].
  unfold bad_date in Hbad. rewrite Hd in Hbad. lia.
Qed.

Lemma update_event_bad_date (db : Db) id now body :
  bad_date now (Body.eventDate body) ->
  (update_event id now body db).1.2 = db
  /\ status (update_event id now body db).1.1 <> 200%nat
  /\ classify (update_event id now body db).1.1
     = Some (default ValidationError (update_precheck id body db)).
Proof.
  intros Hbad. unfold bad_date in Hbad.
  unfold update_event, update_precheck.
  destruct (ObjectId_isValid id); [|done].
  destruct (truthy (Body.requestorEmail body)); [|done].
  unfold_store. cbn.
  destruct (first_match (by_id _) (events db)) as [e|]; [|by destruct db].
  case_bool_decide; [by destruct db|].
  destruct (truthy (Body.title body)); [|by destruct db].
  destruct (truthy (Body.description body)); [|by destruct db].
  destruct (truthy (Body.eventType body)); [|by destruct db].
  destruct (truthy (Body.thumbnail body)); [|by destruct db].
  destruct (truthy (Body.location body)); [|by destruct db].
  destruct (truthy (Body.eventDate body)); [|by destruct db].
  cbn [negb orb].
  destruct (Date_parse (str (Body.eventDate body))) as [d|];
    [|by destruct db].
  apply Z.leb_le in Hbad. rewrite Hbad. by destruct db.
Qed.

(** C5, as the handlers implement it.  When eventDate is unparseable or
    not after the current time, [create_event] answers 400, a
    ValidationError, with no store call; [update_event] fails and writes
    nothing, with the failure of its earlier checks (malformed id or
    missing requestorEmail, NotFound, Forbidden) when one of them applies
    and a ValidationError otherwise.  When either succeeds, the stored
    eventDate is strictly after the clock reading of the handler, hence
    after every earlier instant. *)
Theorem event_date_is_validated (db : Db) (now : Z) (body : Body.t) :
  (bad_date now (Body.eventDate body) ->
   (forall fresh createdAt,
      (create_event fresh now createdAt body db).1.2 = db
      /\ (create_event fresh now createdAt body db).2 = []
      /\ status (create_event fresh now createdAt body db).1.1 = 400%nat
      /\ fails ValidationError (create_event fresh now createdAt body db).1)
   /\ (forall id,
         (update_event id now body db).1.2 = db
         /\ status (update_event id now body db).1.1 <> 200%nat
         /\ classify (update_event id now body db).1.1
            = Some (default ValidationError (update_precheck id body db))))
  /\ (forall fresh createdAt,
        status (create_event fresh now createdAt body db).1.1 = 201%nat ->
        exists doc,
          events (create_event fresh now createdAt body db).1.2
          = events db ++ [doc]
          /\ Date_parse (str (Body.eventDate body))
             = Some (Event.eventDate doc)
          /\ forall t, t <= now -> t < Event.eventDate doc)
  /\ (forall id,
        status (update_event id now body db).1.1 = 200%nat ->
        exists doc,
          first_match (by_id (ObjectId_new id))
            (events (update_event id now body db).1.2) = Some doc
          /\ Date_parse (str (Body.eventDate body))
             = Some (Event.eventDate doc)
          /\ forall t, t <= now -> t < Event.eventDate doc).
Proof.
  split; [|split].
  - intros Hbad. split.
    + intros. by apply create_event_bad_date.
    + intros. by apply update_event_bad_date.
  - intros fresh createdAt Hst.
    destruct (create_event_effect db fresh now createdAt body)
      as [(_ & _ & Hst' & _)|(d & Hd & Hlt & _ & _ & ->)]; [congruence|].
    eexists. split; [done|]. split; [done|]. simpl. lia.
  - intros id Hst.
    destruct (update_event_effect db id now body)
      as [[_ Hst']|(e & d & _ & Hfind & _ & Hd & Hlt & _ & ->)]; [done|].
    eexists. split.
    + simpl. apply first_match_update_first; [done|].
      rewrite by_id_set_event_fields.
      by destruct (first_match_Some _ _ _ Hfind).
    + split; [done|]. simpl. lia.
Qed.

(** ** Updates touch one document *)

Lemma update_first_by_id (set : Event.t -> Event.t) (l : list Event.t)
    (i : nat) (e : Event.t) :
  NoDup (Event._id <$> l) -> l !! i = Some e ->
  update_first (by_id (Event._id e)) set l = <[i := set e]> l.
Proof.
  revert i. induction l as [|x l IH]; intros i Hnd Hi; [done|].
  rewrite fmap_cons in Hnd. apply NoDup_cons in Hnd as [Hx Hnd].
  destruct i as [|i]; simpl in *.
  - injection Hi as ->. by rewrite (proj2 (by_id_true _ _) eq_refl).
  - assert (by_id (Event._id e) x = false) as ->.
    { apply by_id_false. intros Heq. apply Hx. rewrite Heq.
      apply list_elem_of_fmap_2. by eapply list_elem_of_lookup_2. }
    f_equal. by apply IH.
Qed.

(** C6.  A successful [update_event] on the id of a stored Event [e] by
    its creator replaces [e], where it stands, by the document with the
    six fields of the request and [e]'s own [_id], creatorEmail and
    createdAt; every other Event, every Join and every User is as
    before. *)
Theorem update_event_frame (db : Db) (e : Event.t) (id : string) (now : Z)
    (body : Body.t) :
  ids_unique db -> e ∈ events db -> id_of id e ->
  status (update_event id now body db).1.1 = 200%nat ->
  exists (i : nat) (d : Z) (e' : Event.t),
    events db !! i = Some e
    /\ Date_parse (str (Body.eventDate body)) = Some d
    /\ e' = Event.mk (Event._id e) (str (Body.title body))
              (str (Body.description body)) (str (Body.eventType body))
              (str (Body.thumbnail body)) (str (Body.location body)) d
              (Event.creatorEmail e) (Event.createdAt e)
    /\ events (update_event id now body db).1.2 = <[i := e']> (events db)
    /\ (forall k, k <> i ->
          events (update_event id now body db).1.2 !! k = events db !! k)
    /\ joinedEvents (update_event id now body db).1.2 = joinedEvents db
    /\ users (update_event id now body db).1.2 = users db.
Proof.
  intros Hu He Hid Hst.
  pose proof (stored_event_found _ _ _ Hu He Hid) as Hfind.
  destruct Hid as [_ Hid].
  destruct (update_event_effect db id now body)
    as [[_ Hst']|(e0 & d & _ & Hfind' & _ & Hd & _ & _ & ->)]; [done|].
  apply list_elem_of_lookup_1 in He as [i Hi].
  exists i, d. eexists. split; [done|]. split; [done|]. split; [reflexivity|].
  simpl. rewrite Hid, (update_first_by_id _ _ i e) by done.
  repeat split. intros k Hk. by rewrite list_lookup_insert_ne.
Qed.

(** ** Deleting an event and its joins *)

Lemma elem_of_List_filter {A} (p : A -> bool) l x :
  x ∈ List.filter p l <-> x ∈ l /\ p x = true.
Proof. rewrite !list_elem_of_In. apply filter_In. Qed.

Lemma elem_of_sort_by {A} (key : A -> Z) l x : x ∈ sort_by key l <-> x ∈ l.
Proof. unfold sort_by. by rewrite merge_sort_Permutation. Qed.

Lemma delete_first_by_id (i : ObjectId) (l : list Event.t) :
  NoDup (Event._id <$> l) ->
  delete_first (by_id i) l = List.filter (fun x => negb (by_id i x)) l.
Proof.
  induction l as [|x l IH]; [done|].
  rewrite fmap_cons. intros [Hx Hnd]%NoDup_cons. simpl.
  destruct (by_id i x) eqn:Hq; simpl; [|by rewrite IH].
  apply by_id_true in Hq. subst i. clear IH.
  induction l as [|y l IH]; [done|]. simpl.
  rewrite fmap_cons in Hx, Hnd. apply not_elem_of_cons in Hx as [Hxy Hx].
  apply NoDup_cons in Hnd as [_ Hnd].
  rewrite (proj2 (by_id_false (Event._id x) y)) by done. simpl.
  f_equal. by apply IH.
Qed.

(** C4.  A successful [delete_event] on the id of a stored Event [e],
    which only [e]'s creator obtains, removes [e] and nothing else from
    the events, and removes from the joins exactly those whose eventId is
    [e]'s id; afterwards [list_joined_events] returns, for every user, no
    Join referring to [e]. *)
Theorem delete_event_cascades (db : Db) (e : Event.t) (id : string)
    (body : Body.t) :
  ids_unique db -> e ∈ events db -> id_of id e ->
  status (delete_event id body db).1.1 = 200%nat ->
  Body.requestorEmail body = Some (Event.creatorEmail e)
  /\ (forall x, x ∈ events (delete_event id body db).1.2
                <-> x ∈ events db /\ x <> e)
  /\ (forall j, j ∈ joinedEvents (delete_event id body db).1.2
                <-> j ∈ joinedEvents db /\ Join.eventId j <> Event._id e)
  /\ users (delete_event id body db).1.2 = users db
  /\ (forall u j,
        j ∈ joins_of (list_joined_events u (delete_event id body db).1.2).1.1
        -> Join.eventId j <> Event._id e).
Proof.
  intros Hu He Hid Hst.
  pose proof (stored_event_found _ _ _ Hu He Hid) as Hfind.
  destruct Hid as [_ Hid].
  destruct (delete_event_effect db id body)
    as [[_ Hst']|(e0 & _ & Hfind' & Hown & _ & ->)]; [done|].
  rewrite Hfind in Hfind'. injection Hfind' as <-.
  assert (forall j, j ∈ delete_all
            (fun j => bool_decide (Join.eventId j = ObjectId_new id))
            (joinedEvents db)
          <-> j ∈ joinedEvents db /\ Join.eventId j <> Event._id e) as Hjoins.
  { intros j. unfold delete_all. rewrite elem_of_List_filter, Hid.
    by rewrite negb_true_iff, bool_decide_eq_false. }
  split; [done|]. simpl. split; [|split; [done|split; [done|]]].
  - intros x. rewrite delete_first_by_id, elem_of_List_filter by done.
    rewrite negb_true_iff, by_id_false, Hid. split.
    + intros [Hx Hne]. split; [done|]. by intros ->.
    + intros [Hx Hne]. split; [done|]. intros Heq. apply Hne.
      pose proof (first_match_by_id _ _ Hu Hx) as H1.
      rewrite Heq, <- Hid, Hfind in H1. by injection H1.
  - intros u j. unfold list_joined_events.
    destruct (truthy u); simpl; [|by intros ?%elem_of_nil].
    unfold_store. cbn. rewrite elem_of_sort_by, elem_of_List_filter.
    intros [Hj _]. by apply Hjoins.
Qed.

(** ** Listings *)

#[local] Instance le_on_total {A} (key : A -> Z) : Total (le_on key).
Proof. intros a b. unfold le_on. lia. Qed.

#[local] Instance le_on_trans {A} (key : A -> Z) : Transitive (le_on key).
Proof. intros a b c. unfold le_on. lia. Qed.

Lemma sort_by_sorted {A} (key : A -> Z) l :
  StronglySorted (fun a b => key a <= key b) (sort_by key l).
Proof. apply (StronglySorted_merge_sort (le_on key)). Qed.

Lemma sort_by_perm {A} (key : A -> Z) l : sort_by key l ≡ₚ l.
Proof. apply merge_sort_Permutation. Qed.

Lemma List_filter_all {A} (l : list A) : List.filter (fun _ => true) l = l.
Proof. induction l as [|x l IH]; simpl; congruence. Qed.

(** C9.  [list_events] answers with all stored Events, each as many times
    as it is stored, in ascending order of eventDate; [list_upcoming_events]
    answers with exactly the stored Events whose eventDate is strictly
    greater than the current time, in ascending order of eventDate.
    Neither changes the database. *)
Theorem listings_are_sorted (db : Db) (now : Z) :
  (exists l,
     list_events db
     = ({| status := 200; payload := EventList (length l) l |}, db,
        [(events_name, m_find)])
     /\ l ≡ₚ events db
     /\ StronglySorted (fun a b => Event.eventDate a <= Event.eventDate b) l)
  /\ (exists l,
        list_upcoming_events now db
        = ({| status := 200; payload := EventList (length l) l |}, db,
           [(events_name, m_find)])
        /\ l ≡ₚ List.filter (fun e => now <? Event.eventDate e) (events db)
        /\ (forall e, e ∈ l <-> e ∈ events db /\ now < Event.eventDate e)
        /\ StronglySorted
             (fun a b => Event.eventDate a <= Event.eventDate b) l).
Proof.
  split.
  - exists (sort_by Event.eventDate (events db)). split; [|split].
    + unfold list_events. unfold_store. cbn. by rewrite List_filter_all.
    + apply sort_by_perm.
    + apply sort_by_sorted.
  - exists (sort_by Event.eventDate
              (List.filter (fun e => now <? Event.eventDate e) (events db))).
    split; [|split; [|split]].
    + unfold list_upcoming_events. unfold_store. by cbn.
    + apply sort_by_perm.
    + intros e. by rewrite elem_of_sort_by, elem_of_List_filter, Z.ltb_lt.
    + apply sort_by_sorted.
Qed.

(** ** Synchronising a known user *)

Lemma update_first_insert {A} (q : A -> bool) set l d :
  first_match q l = Some d ->
  exists i, l !! i = Some d /\ update_first q set l = <[i := set d]> l.
Proof.
  induction l as [|x l IH]; simpl; [discriminate|].
  destruct (q x) eqn:Hq.
  - intros [= ->]. by exists 0%nat.
  - intros H. destruct (IH H) as (i & Hi & ->). by exists (S i).
Qed.

Lemma by_email_true email u :
  by_email email u = true <-> Some (User.email u) = email.
Proof. unfold by_email. apply bool_decide_eq_true. Qed.

(** The update branch: for a User [u] stored under [email], the handler
    rewrites that one document with [sync_set] and answers with its view. *)
Lemma sync_user_existing (db : Db) (fresh : ObjectId) (now1 now2 : Z)
    (body : Body.t) (email : string) (u : User.t) :
  Body.email body = Some email -> email <> EmptyString ->
  user_of (Some email) db = Some u ->
  exists (i : nat) (u' : User.t),
    users db !! i = Some u
    /\ u' = sync_set (Body.displayName body) (Body.photoURL body) now1 u
    /\ (sync_user fresh now1 now2 body db).1.1
       = {| status := 200; payload := UserDoc (view u' None) |}
    /\ (sync_user fresh now1 now2 body db).1.2
       = mkDb (events db) (joinedEvents db) (<[i := u']> (users db))
    /\ user_of (Some email) (sync_user fresh now1 now2 body db).1.2 = Some u'
    /\ User.role u' = User.role u
    /\ ((truthy (Body.displayName body) = false
         \/ Body.displayName body = Some (User.displayName u)) ->
        (truthy (Body.photoURL body) = false
         \/ Body.photoURL body = Some (User.photoURL u)) ->
        u' = User.mk (User._id u) (User.email u) (User.displayName u)
               (User.photoURL u) (User.role u) (User.createdAt u) now1).
Proof.
  intros Hbody Hne Hu. unfold user_of in *.
  destruct (update_first_insert (by_email (Some email))
              (sync_set (Body.displayName body) (Body.photoURL body) now1)
              _ _ Hu) as (i & Hi & Hupd).
  exists i, (sync_set (Body.displayName body) (Body.photoURL body) now1 u).
  assert (first_match (by_email (Some email))
            (<[i := sync_set (Body.displayName body) (Body.photoURL body)
                      now1 u]> (users db))
          = Some (sync_set (Body.displayName body) (Body.photoURL body)
                    now1 u)) as Hfound.
  { rewrite <- Hupd. apply first_match_update_first; [done|].
    by destruct (first_match_Some _ _ _ Hu). }
  split; [done|]. split; [done|].
  unfold sync_user. rewrite Hbody, truthy_Some by done.
  unfold_store. cbn. rewrite Hu. cbn.
  rewrite Hupd, Hfound. cbn.
  split; [done|]. split; [done|]. split; [done|]. split; [done|].
  intros Hd Hp. unfold sync_set. f_equal.
  - destruct Hd as [->|Hd]; [done|]. rewrite Hd. simpl.
    by destruct (User.displayName u).
  - destruct Hp as [->|Hp]; [done|]. rewrite Hp. simpl.
    by destruct (User.photoURL u).
Qed.

Lemma first_match_app_new {A} (q : A -> bool) l d :
  first_match q l = None -> q d = true -> first_match q (l ++ [d]) = Some d.
Proof.
  induction l as [|x l IH]; simpl; intros H Hd; [by rewrite Hd|].
  destruct (q x); [discriminate|]. by apply IH.
Qed.

(** The insert branch: no User is stored under [email]. *)
Lemma sync_user_new (db : Db) (fresh : ObjectId) (now1 now2 : Z)
    (body : Body.t) (email : string) :
  Body.email body = Some email -> email <> EmptyString ->
  user_of (Some email) db = None ->
  let u := User.mk fresh email (str (Body.displayName body))
             (str (Body.photoURL body)) "user" now1 now2 in
  (sync_user fresh now1 now2 body db).1.1
  = {| status := 200; payload := UserDoc (view u None) |}
  /\ (sync_user fresh now1 now2 body db).1.2
     = mkDb (events db) (joinedEvents db) (users db ++ [u])
  /\ user_of (Some email) (sync_user fresh now1 now2 body db).1.2 = Some u.
Proof.
  intros Hbody Hne Hu u. unfold user_of in *.
  unfold sync_user. rewrite Hbody, truthy_Some by done.
  unfold_store. cbn. rewrite Hu. cbn. split; [done|]. split; [done|].
  apply first_match_app_new; [done|]. by apply by_email_true.
Qed.

(** C8.  [sync_user] on an email under which a User [u] is stored rewrites
    that one document, keeps its role, and, when displayName and photoURL
    are absent, empty or equal to the stored ones, changes nothing in it
    but updatedAt, which becomes the clock reading of the call.  Hence a
    second call with the same request, after any first one, leaves the
    User's role, displayName and photoURL as the first call left them,
    answers as the first did, and only moves updatedAt. *)
Theorem sync_user_is_idempotent (db : Db) (body : Body.t) (email : string) :
  Body.email body = Some email -> email <> EmptyString ->
  (forall fresh now1 now2 u,
     user_of (Some email) db = Some u ->
     exists (i : nat) (u' : User.t),
       users db !! i = Some u
       /\ (sync_user fresh now1 now2 body db).1.2
          = mkDb (events db) (joinedEvents db) (<[i := u']> (users db))
       /\ user_of (Some email) (sync_user fresh now1 now2 body db).1.2
          = Some u'
       /\ u' = sync_set (Body.displayName body) (Body.photoURL body) now1 u
       /\ User.role u' = User.role u
       /\ ((truthy (Body.displayName body) = false
            \/ Body.displayName body = Some (User.displayName u)) ->
           (truthy (Body.photoURL body) = false
            \/ Body.photoURL body = Some (User.photoURL u)) ->
           u' = User.mk (User._id u) (User.email u) (User.displayName u)
                  (User.photoURL u) (User.role u) (User.createdAt u) now1))
  /\ (forall fresh1 a1 b1 fresh2 a2 b2,
        let first := sync_user fresh1 a1 b1 body db in
        let second := sync_user fresh2 a2 b2 body first.1.2 in
        exists (i : nat) (u1 : User.t),
          user_of (Some email) first.1.2 = Some u1
          /\ users first.1.2 !! i = Some u1
          /\ second.1.2
             = mkDb (events first.1.2) (joinedEvents first.1.2)
                 (<[i := User.mk (User._id u1) (User.email u1)
                           (User.displayName u1) (User.photoURL u1)
                           (User.role u1) (User.createdAt u1) a2]>
                    (users first.1.2))
          /\ second.1.1 = first.1.1).
Proof.
  intros Hbody Hne. split.
  - intros fresh now1 now2 u Hu.
    destruct (sync_user_existing db fresh now1 now2 body email u Hbody Hne Hu)
      as (i & u' & ? & ? & ? & ? & ? & ? & ?).
    exists i, u'. done.
  - intros fresh1 a1 b1 fresh2 a2 b2 first second.
    assert (exists u1, user_of (Some email) first.1.2 = Some u1
              /\ first.1.1
                 = {| status := 200; payload := UserDoc (view u1 None) |}
              /\ (truthy (Body.displayName body) = false
                  \/ Body.displayName body = Some (User.displayName u1))
              /\ (truthy (Body.photoURL body) = false
                  \/ Body.photoURL body = Some (User.photoURL u1)))
      as (u1 & Hu1 & Hres1 & Hd & Hp).
    { subst first. destruct (user_of (Some email) db) as [u|] eqn:Hu.
      - destruct (sync_user_existing db fresh1 a1 b1 body email u Hbody Hne Hu)
          as (i & u' & _ & -> & Hres & _ & Hfound & _ & _).
        exists (sync_set (Body.displayName body) (Body.photoURL body) a1 u).
        split; [done|]. split; [done|]. simpl. split.
        + destruct (truthy (Body.displayName body)) eqn:Ht; [right|by left].
          by apply truthy_str in Ht as [-> _].
        + destruct (truthy (Body.photoURL body)) eqn:Ht; [right|by left].
          by apply truthy_str in Ht as [-> _].
      - destruct (sync_user_new db fresh1 a1 b1 body email Hbody Hne Hu)
          as (Hres & _ & Hfound).
        eexists. split; [exact Hfound|]. split; [done|]. simpl. split.
        + destruct (truthy (Body.displayName body)) eqn:Ht; [right|by left].
          by apply truthy_str in Ht as [-> _].
        + destruct (truthy (Body.photoURL body)) eqn:Ht; [right|by left].
          by apply truthy_str in Ht as [-> _]. }
    destruct (sync_user_existing first.1.2 fresh2 a2 b2 body email u1
                Hbody Hne Hu1)
      as (i & u' & Hi & -> & Hres & Hdb & _ & _ & Hsame).
    specialize (Hsame Hd Hp).
    exists i, u1. split; [done|]. split; [done|]. subst second.
    rewrite Hdb, Hres, Hres1, Hsame. done.
Qed.

(** ** Invariants of the database *)

Lemma read_only_handlers (db : Db) :
  (compute_statistics db).1.2 = db
  /\ (compute_statistics_distinct db).1.2 = db
  /\ (forall email, (get_user email db).1.2 = db)
  /\ (forall requestorEmail, (list_all_users requestorEmail db).1.2 = db)
  /\ (list_events db).1.2 = db
  /\ (forall now, (list_upcoming_events now db).1.2 = db)
  /\ (forall email, (list_events_by_creator email db).1.2 = db)
  /\ (forall id, (get_event id db).1.2 = db)
  /\ (forall email, (list_joined_events email db).1.2 = db).
Proof.
  repeat split; intros;
    unfold compute_statistics, compute_statistics_distinct, get_user,
      list_all_users, list_events, list_upcoming_events,
      list_events_by_creator, get_event, list_joined_events;
    unfold_store; cbn;
    repeat match goal with
           | |- context [if ?b then _ else _] => destruct b; cbn
           | |- context [match ?x with Some _ => _ | None => _ end] =>
               destruct x; cbn
           end; done.
Qed.

Lemma user_handlers_keep_events (db : Db) :
  (forall fresh now1 now2 body,
     events (sync_user fresh now1 now2 body db).1.2 = events db
     /\ joinedEvents (sync_user fresh now1 now2 body db).1.2 = joinedEvents db)
  /\ (forall email now body,
        events (set_user_role email now body db).1.2 = events db
        /\ joinedEvents (set_user_role email now body db).1.2
           = joinedEvents db).
Proof.
  split; intros; unfold sync_user, set_user_role; unfold_store; cbn;
    repeat match goal with
           | |- context [if ?b then _ else _] => destruct b; cbn
           | |- context [match ?x with Some _ => _ | None => _ end] =>
               destruct x; cbn
           end; done.
Qed.

Lemma seed_demo_events_effect (db : Db) (fresh : nat -> ObjectId) (now : Z) :
  exists docs,
    (seed_demo_events fresh now db).1.2
    = mkDb (events db ++ docs) (joinedEvents db) (users db)
    /\ Event._id <$> docs = fresh <$> seq 0 (length demoEvents)
    /\ Forall (fun d => Event.creatorEmail d <> EmptyString) docs.
Proof.
  eexists. split; [reflexivity|]. split; [reflexivity|].
  repeat constructor; discriminate.
Qed.

Lemma fmap_update_first {A B} (f : A -> B) (q : A -> bool) set l :
  (forall x, f (set x) = f x) -> f <$> update_first q set l = f <$> l.
Proof.
  intros Hf. induction l as [|x l IH]; [done|]. simpl.
  destruct (q x); rewrite !fmap_cons; [by rewrite Hf | by rewrite IH].
Qed.

(** Every request leaves the events and the joins in one of four ways. *)
Lemma handle_effect (db : Db) (r : Request) :
  fresh_for db r ->
  let db' := (handle r db).1.2 in
  (Event._id <$> events db' = Event._id <$> events db
   /\ Event.creatorEmail <$> events db' = Event.creatorEmail <$> events db
   /\ joinedEvents db' = joinedEvents db)
  \/ (exists docs,
        events db' = events db ++ docs
        /\ NoDup (Event._id <$> docs)
        /\ (forall d, d ∈ docs -> Event._id d ∉ (Event._id <$> events db))
        /\ Forall (fun d => Event.creatorEmail d <> EmptyString) docs
        /\ joinedEvents db' = joinedEvents db)
  \/ (exists i,
        events db' = delete_first (by_id i) (events db)
        /\ joinedEvents db'
           = delete_all (fun j => bool_decide (Join.eventId j = i))
               (joinedEvents db))
  \/ (exists j,
        events db' = events db
        /\ joinedEvents db' = joinedEvents db ++ [j]
        /\ (join_key j ∉ join_key <$> joinedEvents db)
        /\ Join.userEmail j <> EmptyString).
Proof.
  intros Hfresh db'. subst db'.
  pose proof (read_only_handlers db)
    as (H1 & H2 & H3 & H4 & H5 & H6 & H7 & H8 & H9).
  pose proof (user_handlers_keep_events db) as [Hs Hr].
  destruct r; simpl handle; simpl in Hfresh;
    try (left; by rewrite ?H1, ?H2, ?H3, ?H4, ?H5, ?H6, ?H7, ?H8, ?H9).
  - left. by destruct (Hs fresh now1 now2 body) as [-> ->].
  - left. by destruct (Hr email now body) as [-> ->].
  - right; left. destruct (seed_demo_events_effect db fresh now)
      as (docs & -> & Hids & Hc).
    exists docs. simpl. destruct Hfresh as [Hnd Hnew].
    split; [done|]. split; [by rewrite Hids|]. split; [|done].
    intros d Hd. apply (list_elem_of_fmap_2 Event._id) in Hd.
    rewrite Hids in Hd. apply list_elem_of_fmap in Hd as (i & -> & Hi).
    apply Hnew. apply elem_of_seq in Hi. cbn in Hi |- *. lia.
  - destruct (create_event_effect db fresh now createdAt body)
      as [(-> & _)|(d & _ & _ & Hc & _ & ->)]; [by left|].
    right; left. eexists. simpl. split; [reflexivity|].
    split; [apply NoDup_singleton|]. split; [|by repeat constructor].
    by intros ? ->%list_elem_of_singleton.
  - destruct (update_event_effect db id now body)
      as [[-> _]|(e & d & _ & _ & _ & _ & _ & _ & ->)]; [by left|].
    left. simpl. by rewrite !fmap_update_first.
  - destruct (join_event_effect db fresh joinedAt body)
      as [[_ ->]|(id & u & e & _ & _ & _ & Hu & _ & _ & Hnone & _ & ->)];
      [by left|].
    right; right; right. eexists. simpl. split; [done|]. split; [done|].
    split; [|done]. intros (j & Hkey & Hj)%list_elem_of_fmap.
    rewrite first_match_None in Hnone. specialize (Hnone j Hj).
    assert (same_join (Event._id e) u j = true) as Heq
      by (by apply same_join_true). congruence.
  - destruct (delete_event_effect db id body)
      as [[-> _]|(e & _ & _ & _ & _ & ->)]; [by left|].
    right; right; left. by eexists.
Qed.

Lemma NoDup_fmap_List_filter {A B} (f : A -> B) (p : A -> bool) l :
  NoDup (f <$> l) -> NoDup (f <$> List.filter p l).
Proof.
  induction l as [|x l IH]; [done|]. rewrite fmap_cons.
  intros [Hx Hnd]%NoDup_cons. simpl.
  destruct (p x); [|by apply IH]. rewrite fmap_cons. apply NoDup_cons.
  split; [|by apply IH].
  intros (y & Hxy & Hy%elem_of_List_filter)%list_elem_of_fmap.
  apply Hx. rewrite Hxy. apply list_elem_of_fmap_2. tauto_closed.
Qed.

Lemma elem_of_delete_first {A} (q : A -> bool) l x :
  x ∈ delete_first q l -> x ∈ l.
Proof.
  induction l as [|y l IH]; [done|]. simpl.
  destruct (q y); [by right|].
  intros [->|H]%elem_of_cons; [left | right; auto].
Qed.

Lemma NoDup_fmap_delete_first {A B} (f : A -> B) (q : A -> bool) l :
  NoDup (f <$> l) -> NoDup (f <$> delete_first q l).
Proof.
  induction l as [|x l IH]; [done|]. rewrite fmap_cons.
  intros [Hx Hnd]%NoDup_cons. simpl.
  destruct (q x); [done|]. rewrite fmap_cons. apply NoDup_cons.
  split; [|by apply IH].
  intros (y & Hxy & Hy%elem_of_delete_first)%list_elem_of_fmap.
  apply Hx. rewrite Hxy. by apply list_elem_of_fmap_2.
Qed.

Lemma Forall_creators (l l' : list Event.t) :
  Event.creatorEmail <$> l' = Event.creatorEmail <$> l ->
  (forall e, e ∈ l -> Event.creatorEmail e <> EmptyString) ->
  forall e, e ∈ l' -> Event.creatorEmail e <> EmptyString.
Proof.
  intros Heq H e He. apply (list_elem_of_fmap_2 Event.creatorEmail) in He.
  rewrite Heq in He. apply list_elem_of_fmap in He as (e0 & -> & He0). auto.
Qed.

(** Each request keeps the three invariants. *)
Lemma handle_preserves (db : Db) (r : Request) :
  fresh_for db r ->
  (ids_unique db -> ids_unique (handle r db).1.2)
  /\ (emails_present db -> emails_present (handle r db).1.2)
  /\ (joins_unique db -> joins_unique (handle r db).1.2).
Proof.
  intros Hfresh. unfold ids_unique, emails_present, joins_unique.
  destruct (handle_effect db r Hfresh)
    as [(Hi & Hc & Hj)
       |[(docs & He & Hnd & Hnew & Hc & Hj)
        |[(i & He & Hj)|(j & He & Hj & Hkey & Hu)]]].
  - rewrite Hi, Hj. split; [done|]. split; [|done].
    intros [H1 H2]. split; [|done]. by apply (Forall_creators (events db)).
  - rewrite He, Hj, fmap_app. split; [|split; [|done]].
    + intros H. apply NoDup_app. split; [done|]. split; [|done].
      intros x Hx (d & -> & Hd)%list_elem_of_fmap. by apply (Hnew d).
    + intros [H1 H2]. split; [|done].
      intros e [?|?]%elem_of_app; [auto|].
      by apply (proj1 (Forall_forall _ _) Hc).
  - rewrite He, Hj. split; [apply NoDup_fmap_delete_first|split].
    + intros [H1 H2]. split.
      * intros e ?%elem_of_delete_first. auto.
      * intros j [? _]%elem_of_List_filter. auto.
    + apply NoDup_fmap_List_filter.
  - rewrite He, Hj, fmap_app. split; [done|]. split.
    + intros [H1 H2]. split; [done|].
      intros j' [?|Hs%list_elem_of_singleton]%elem_of_app; [auto|by subst].
    + intros H. apply NoDup_app. split; [done|].
      split; [|apply NoDup_singleton].
      intros x Hx ->%list_elem_of_singleton. done.
Qed.

(** The invariants hold in every database reached from one where they
    hold, the empty one in particular. *)
Lemma reachable_invariants (db0 db : Db) :
  reachable_from db0 db ->
  (ids_unique db0 -> ids_unique db)
  /\ (emails_present db0 -> emails_present db)
  /\ (joins_unique db0 -> joins_unique db).
Proof.
  induction 1 as [|db r Hreach IH Hfresh]; [done|].
  destruct (handle_preserves db r Hfresh) as (H1 & H2 & H3).
  destruct IH as (I1 & I2 & I3). repeat split; auto.
  - apply H2; auto.
  - apply H2; auto.
Qed.

Lemma empty_db_invariants :
  ids_unique empty_db /\ emails_present empty_db /\ joins_unique empty_db.
Proof.
  unfold ids_unique, emails_present, joins_unique. simpl.
  split; [apply NoDup_nil_2|]. split; [|apply NoDup_nil_2].
  split; intros ? ?%elem_of_nil; done.
Qed.

(** C3.  In every state in which a Join exists for the pair (eventId,
    userEmail) and eventId resolves to an existing Event, [join_event] for
    that pair answers with the duplicate failure (status 400, kind
    Conflict) after its two lookups and leaves the database, the joins in
    particular, as it was.  So a second identical request after a
    successful one is a Conflict, and requests served in sequence never
    produce two Joins for one pair.  States are those without an empty
    stored email, which is how the handlers build and keep them. *)
Theorem duplicate_join_is_a_conflict :
  (forall db id u e j fresh joinedAt body,
     emails_present db ->
     Body.eventId body = Some id -> Body.userEmail body = Some u ->
     id <> EmptyString -> ObjectId_isValid id = true ->
     first_match (by_id (ObjectId_new id)) (events db) = Some e ->
     j ∈ joinedEvents db -> join_key j = (ObjectId_new id, u) ->
     join_event fresh joinedAt body db
     = ({| status := 400;
           payload := Failure "You have already joined this event." |},
        db, [(events_name, m_findOne); (joinedEvents_name, m_findOne)])
     /\ fails Conflict (join_event fresh joinedAt body db).1)
  /\ (forall db fresh1 at1 fresh2 at2 body,
        status (join_event fresh1 at1 body db).1.1 = 201%nat ->
        let db1 := (join_event fresh1 at1 body db).1.2 in
        (join_event fresh2 at2 body db1).1.1
        = {| status := 400;
             payload := Failure "You have already joined this event." |}
        /\ (join_event fresh2 at2 body db1).1.2 = db1)
  /\ (forall db0 db,
        reachable_from db0 db ->
        (emails_present db0 -> emails_present db)
        /\ (joins_unique db0 -> joins_unique db))
  /\ emails_present empty_db /\ joins_unique empty_db.
Proof.
  split; [|split; [|split]].
  - intros db id u e j fresh joinedAt body [_ Hpresent] Hid Hu Hid0 Hvalid
      Hfind Hj Hkey.
    assert (u <> EmptyString) as Hu0.
    { injection Hkey as _ <-. by apply Hpresent. }
    rewrite (join_event_duplicate db id u e j fresh joinedAt body) by done.
    done.
  - intros db fresh1 at1 fresh2 at2 body Hst db1. subst db1.
    destruct (join_event_effect db fresh1 at1 body)
      as [[Hst' _]|(id & u & e & Hid & Hu & Hid0 & Hu0 & Hvalid & Hfind & _
                    & _ & ->)]; [done|].
    rewrite (join_event_duplicate _ id u e (joinDoc_of fresh1 at1 u e)
               fresh2 at2 body); try done.
    + simpl. apply elem_of_app. right. by apply list_elem_of_singleton.
    + unfold join_key. simpl. f_equal.
      by destruct (first_match_Some _ _ _ Hfind) as [_ ?%by_id_true].
  - intros db0 db Hreach.
    destruct (reachable_invariants db0 db Hreach) as (_ & H1 & H2). auto.
  - destruct empty_db_invariants as (_ & H1 & H2). auto.
Qed.

(** ** Counting users *)

Lemma uniq_spec (seen l : list string) :
  NoDup (uniq seen l)
  /\ forall x, x ∈ uniq seen l <-> x ∈ l /\ x ∉ seen.
Proof.
  revert seen. induction l as [|y l IH]; intros seen; simpl.
  - split; [apply NoDup_nil_2|]. intros x. rewrite elem_of_nil. tauto_closed.
  - case_bool_decide as Hy.
    + destruct (IH seen) as [Hnd Hin]. split; [done|].
      intros x. rewrite Hin, elem_of_cons. split; [tauto_closed|].
      intros [[->|Hx] Hs]; tauto_closed.
    + destruct (IH (y :: seen)) as [Hnd Hin]. split.
      * apply NoDup_cons. split; [|done]. rewrite Hin, elem_of_cons.
        tauto_closed.
      * intros x. rewrite !elem_of_cons, Hin, elem_of_cons.
        destruct (decide (x = y)) as [->|]; tauto_closed.
Qed.

Lemma Set_of_NoDup l : NoDup (Set_of l).
Proof. apply uniq_spec. Qed.

Lemma elem_of_Set_of l x : x ∈ Set_of l <-> x ∈ l.
Proof.
  unfold Set_of. rewrite (proj2 (uniq_spec [] l)), elem_of_nil. tauto_closed.
Qed.

Lemma size_same_elements (X Y : gset string) :
  (forall x, x ∈ X <-> x ∈ Y) -> size X = size Y.
Proof. intros H. apply set_eq in H. by subst. Qed.

(** The length of [[...new Set(l)]] is the cardinality of the set of the
    elements of [l]. *)
Lemma length_Set_of l : length (Set_of l) = size (list_to_set l : gset string).
Proof.
  rewrite <- (size_list_to_set (C := gset string)) by apply Set_of_NoDup.
  apply size_same_elements. intros x.
  by rewrite !elem_of_list_to_set, elem_of_Set_of.
Qed.

Lemma nonempty_truthy (s : string) :
  truthy (Some s) = true <-> s <> EmptyString.
Proof. destruct s; simpl; split; done. Qed.

(** The two forms of [GET /stats], in full. *)
Lemma compute_statistics_response (db : Db) :
  compute_statistics_distinct db
  = ({| status := 200;
        payload := Stats (length (events db)) (union_cardinality db)
                     (length (joinedEvents db)) |},
     db,
     [(events_name, m_estimatedDocumentCount);
      (joinedEvents_name, m_estimatedDocumentCount);
      (events_name, m_distinct); (joinedEvents_name, m_distinct)])
  /\ compute_statistics db
     = ({| status := 200;
           payload := Stats (length (events db))
                        (nonempty_union_cardinality db)
                        (length (joinedEvents db)) |},
        db,
        [(events_name, m_estimatedDocumentCount);
         (joinedEvents_name, m_estimatedDocumentCount);
         (events_name, m_aggregate); (joinedEvents_name, m_aggregate)]).
Proof.
  split.
  - unfold compute_statistics_distinct. unfold_store. cbn.
    do 4 f_equal. rewrite length_Set_of. unfold union_cardinality.
    apply size_same_elements. intros x.
    rewrite elem_of_list_to_set, elem_of_app, !elem_of_Set_of.
    by rewrite elem_of_union, !elem_of_list_to_set.
  - unfold compute_statistics. unfold_store. cbn.
    do 4 f_equal. rewrite length_Set_of. unfold nonempty_union_cardinality.
    apply size_same_elements. intros x.
    rewrite elem_of_list_to_set, elem_of_app, !elem_of_List_filter,
      !elem_of_Set_of.
    by rewrite elem_of_union, !elem_of_list_to_set, !elem_of_List_filter.
Qed.

(** Without empty emails, dropping the falsy ones changes nothing. *)
Lemma nonempty_union_is_union (db : Db) :
  emails_present db -> nonempty_union_cardinality db = union_cardinality db.
Proof.
  intros [He Hj]. unfold nonempty_union_cardinality, union_cardinality.
  apply size_same_elements. intros x.
  rewrite !elem_of_union, !elem_of_list_to_set, !elem_of_List_filter,
    nonempty_truthy.
  split; [tauto_closed|].
  intros [(e & -> & H)%list_elem_of_fmap|(j & -> & H)%list_elem_of_fmap].
  - left. split; [by apply list_elem_of_fmap_2 | auto].
  - right. split; [by apply list_elem_of_fmap_2 | auto].
Qed.

(** C7.  In every state of the Events and Joins collections,
    [compute_statistics] returns as totalUsers the cardinality of the set
    union of all creatorEmail values across Events and all userEmail
    values across Joins, compared as exact strings.  The [distinct]
    revision (src/index.js) does so whatever the collections hold; the
    [aggregate] revision drops falsy emails first and does so in every
    state without an empty stored email, which is how the handlers build
    and keep the collections. *)
Theorem total_users_counts_distinct_emails :
  (forall db,
     totalUsers_of (compute_statistics_distinct db).1.1
     = Some (union_cardinality db))
  /\ (forall db,
        emails_present db ->
        totalUsers_of (compute_statistics db).1.1
        = Some (union_cardinality db))
  /\ (forall db0 db,
        emails_present db0 -> reachable_from db0 db -> emails_present db)
  /\ emails_present empty_db.
Proof.
  split; [|split; [|split]].
  - intros db. by rewrite (proj1 (compute_statistics_response db)).
  - intros db Hdb. rewrite (proj2 (compute_statistics_response db)). simpl.
    by rewrite nonempty_union_is_union.
  - intros db0 db H0 Hreach.
    destruct (reachable_invariants db0 db Hreach) as (_ & H & _). auto.
  - by destruct empty_db_invariants as (_ & H & _).
Qed.

(** * Further properties of the handlers *)

(** ** Creating and fetching events *)

Lemma not_elem_first_match_by_id (i : ObjectId) (l : list Event.t) :
  i ∉ Event._id <$> l <-> first_match (by_id i) l = None.
Proof.
  rewrite first_match_None. split.
  - intros H d Hd. apply by_id_false. intros Heq. apply H. rewrite <- Heq.
    by apply list_elem_of_fmap_2.
  - intros H (d & -> & Hd)%list_elem_of_fmap.
    specialize (H d Hd). by apply by_id_false in H.
Qed.

Lemma event_fields_check (body : Body.t) :
  negb (truthy (Body.title body)) || negb (truthy (Body.description body))
  || negb (truthy (Body.eventType body)) || negb (truthy (Body.thumbnail body))
  || negb (truthy (Body.location body)) || negb (truthy (Body.eventDate body))
  = negb (event_fields_present body).
Proof.
  unfold event_fields_present.
  by destruct (truthy (Body.title body)), (truthy (Body.description body)),
    (truthy (Body.eventType body)), (truthy (Body.thumbnail body)),
    (truthy (Body.location body)), (truthy (Body.eventDate body)).
Qed.

Lemma create_event_success (db : Db) fresh now createdAt body d :
  event_fields_present body = true ->
  truthy (Body.creatorEmail body) = true ->
  Date_parse (str (Body.eventDate body)) = Some d -> now < d ->
  create_event fresh now createdAt body db
  = ({| status := 201;
        payload := Created "Event created successfully!" fresh |},
     mkDb (events db ++ [event_doc fresh createdAt body d])
       (joinedEvents db) (users db),
     [(events_name, m_insertOne)]).
Proof.
  intros Hf Hc Hd Hlt. unfold create_event.
  rewrite event_fields_check, Hf, Hc, Hd. cbn [negb orb].
  apply Z.leb_gt in Hlt. rewrite Hlt. unfold_store. by cbn.
Qed.

(** X1.  A creation request with all seven fields present and a date that
    parses to a time after the handler's clock reading is answered 201
    with the new id, after one insert that appends the document to the
    events; [get_event] on that id then returns this document, carrying
    the request's fields, the parsed date and the creation time. *)
Theorem created_event_is_fetched (db : Db) (fresh : ObjectId) (id : string)
    (now createdAt d : Z) (body : Body.t) :
  event_fields_present body = true ->
  truthy (Body.creatorEmail body) = true ->
  Date_parse (str (Body.eventDate body)) = Some d -> now < d ->
  fresh ∉ Event._id <$> events db ->
  ObjectId_isValid id = true -> ObjectId_new id = fresh ->
  let created := create_event fresh now createdAt body db in
  created
  = ({| status := 201;
        payload := Created "Event created successfully!" fresh |},
     mkDb (events db ++ [event_doc fresh createdAt body d])
       (joinedEvents db) (users db),
     [(events_name, m_insertOne)])
  /\ get_event id created.1.2
     = ({| status := 200;
           payload := EventDoc (event_doc fresh createdAt body d) |},
        created.1.2, [(events_name, m_findOne)]).
Proof.
  intros Hf Hc Hd Hlt Hfresh Hvalid Hnew created. subst created.
  rewrite (create_event_success db fresh now createdAt body d) by done.
  split; [done|]. unfold get_event. rewrite Hvalid, Hnew.
  unfold_store. cbn.
  rewrite (first_match_app_new (by_id fresh) (events db)
             (event_doc fresh createdAt body d)); [done| |].
  - by apply not_elem_first_match_by_id.
  - by apply by_id_true.
Qed.

(** X2.  A creation request in which one of the seven fields is absent or
    empty is answered 400 "All fields are required." without any store
    call; so is an update by the event's creator in which one of the six
    event fields is absent or empty, after the one lookup; neither changes
    the database. *)
Theorem missing_field_is_rejected (db : Db) (now : Z) (body : Body.t) :
  event_fields_present body = false
  \/ truthy (Body.creatorEmail body) = false ->
  (forall fresh createdAt,
     create_event fresh now createdAt body db
     = ({| status := 400; payload := Failure "All fields are required." |},
        db, []))
  /\ (forall id,
        event_fields_present body = false ->
        update_precheck id body db = None ->
        update_event id now body db
        = ({| status := 400; payload := Failure "All fields are required." |},
           db, [(events_name, m_findOne)])).
Proof.
  intros Hmiss. split.
  - intros fresh createdAt. unfold create_event.
    rewrite event_fields_check.
    destruct Hmiss as [->| ->]; [done|]. by rewrite orb_true_r.
  - intros id Hf Hpre. unfold update_event, update_precheck in *.
    destruct (ObjectId_isValid id); [|done].
    destruct (truthy (Body.requestorEmail body)); [|done].
    unfold_store. cbn in *.
    destruct (first_match (by_id _) (events db)) as [e|]; [|done].
    destruct (bool_decide _); [done|].
    rewrite event_fields_check, Hf. cbn. by destruct db.
Qed.

(** X3.  [get_event] on the id of a stored Event returns that very
    document; on an id the driver accepts but no stored Event carries, it
    answers 404.  Either way it makes one lookup and leaves the database
    as it was. *)
Theorem get_event_finds_by_id (db : Db) (id : string) :
  ObjectId_isValid id = true ->
  (forall e, ids_unique db -> e ∈ events db -> ObjectId_new id = Event._id e ->
             get_event id db
             = ({| status := 200; payload := EventDoc e |}, db,
                [(events_name, m_findOne)]))
  /\ (ObjectId_new id ∉ Event._id <$> events db ->
      get_event id db
      = ({| status := 404; payload := Failure "Event not found." |}, db,
         [(events_name, m_findOne)])).
Proof.
  intros Hvalid. split.
  - intros e Hu He Hid. unfold get_event. rewrite Hvalid, Hid.
    unfold_store. cbn. by rewrite first_match_by_id.
  - intros Hno%not_elem_first_match_by_id. unfold get_event. rewrite Hvalid.
    unfold_store. cbn. by rewrite Hno.
Qed.

(** ** Joining and the listings by user *)

Lemma no_join_first_match (i : ObjectId) (u : string) (l : list Join.t) :
  (i, u) ∉ join_key <$> l <-> first_match (same_join i u) l = None.
Proof.
  rewrite first_match_None. split.
  - intros H j Hj. destruct (same_join i u j) eqn:Hs; [|done].
    apply same_join_true in Hs. exfalso. apply H. rewrite <- Hs.
    by apply list_elem_of_fmap_2.
  - intros H (j & Heq & Hj)%list_elem_of_fmap.
    specialize (H j Hj). symmetry in Heq. apply same_join_true in Heq.
    congruence.
Qed.

(** X4.  A join request with both fields present, for an id that resolves
    to a stored Event [e], by a user who has no Join for it, is answered
    201 with the new id after two lookups and one insert; the Join
    appended carries the pair, the time of the join and a copy of [e]'s
    title, type, thumbnail, location, date and creatorEmail, the events
    are as before, and [list_joined_events] for that user then contains
    the new Join. *)
Theorem join_event_records_a_snapshot (db : Db) (id u : string) (e : Event.t)
    (fresh : ObjectId) (joinedAt : Z) (body : Body.t) :
  Body.eventId body = Some id -> Body.userEmail body = Some u ->
  id <> EmptyString -> u <> EmptyString -> ObjectId_isValid id = true ->
  first_match (by_id (ObjectId_new id)) (events db) = Some e ->
  (Event._id e, u) ∉ join_key <$> joinedEvents db ->
  let j := Join.mk fresh (Event._id e) u joinedAt (Event.title e)
             (Event.eventType e) (Event.thumbnail e) (Event.location e)
             (Event.eventDate e) (Event.creatorEmail e) in
  let joined := join_event fresh joinedAt body db in
  joined
  = ({| status := 201;
        payload := Created "You have successfully joined this event." fresh |},
     mkDb (events db) (joinedEvents db ++ [j]) (users db),
     [(events_name, m_findOne); (joinedEvents_name, m_findOne);
      (joinedEvents_name, m_insertOne)])
  /\ j ∈ joins_of (list_joined_events (Some u) joined.1.2).1.1.
Proof.
  intros Hid Hu Hid0 Hu0 Hvalid Hfind Hnone%no_join_first_match j joined.
  assert (joined
          = ({| status := 201;
                payload :=
                  Created "You have successfully joined this event." fresh |},
             mkDb (events db) (joinedEvents db ++ [j]) (users db),
             [(events_name, m_findOne); (joinedEvents_name, m_findOne);
              (joinedEvents_name, m_insertOne)])) as Hjoined.
  { subst joined. unfold join_event.
    rewrite Hid, Hu, !truthy_Some by done.
    change (str (Some id)) with id. change (str (Some u)) with u.
    rewrite Hvalid. unfold_store. cbn. rewrite Hfind. cbn.
    by rewrite Hnone. }
  split; [done|]. rewrite Hjoined. unfold list_joined_events.
  rewrite truthy_Some by done. unfold_store. cbn -[sort_by].
  rewrite elem_of_sort_by, elem_of_List_filter, elem_of_app.
  split; [right; by apply list_elem_of_singleton|].
  by apply bool_decide_eq_true.
Qed.

(** X5.  [list_joined_events] for a present email answers with exactly the
    stored Joins of that user, each as often as stored, in ascending order
    of the eventDate copied at join time; for an absent or empty email it
    answers 400 without a store call.  It never changes the database. *)
Theorem joined_listing_is_sorted (db : Db) :
  (forall u,
     u <> EmptyString ->
     exists l,
       list_joined_events (Some u) db
       = ({| status := 200; payload := JoinedList (length l) l |}, db,
          [(joinedEvents_name, m_find)])
       /\ l ≡ₚ List.filter (fun j => bool_decide (Join.userEmail j = u))
                 (joinedEvents db)
       /\ (forall j, j ∈ l <-> j ∈ joinedEvents db /\ Join.userEmail j = u)
       /\ StronglySorted (fun a b => Join.eventDate a <= Join.eventDate b) l)
  /\ (forall email,
        truthy email = false ->
        list_joined_events email db
        = ({| status := 400; payload := Failure "User email is required." |},
           db, [])).
Proof.
  split.
  - intros u Hu.
    exists (sort_by Join.eventDate
              (List.filter (fun j => bool_decide (Join.userEmail j = u))
                 (joinedEvents db))).
    split; [|split; [|split]].
    + unfold list_joined_events. rewrite truthy_Some by done.
      unfold_store. by cbn.
    + apply sort_by_perm.
    + intros j.
      by rewrite elem_of_sort_by, elem_of_List_filter, bool_decide_eq_true.
    + apply sort_by_sorted.
  - intros email Hfalsy. unfold list_joined_events. by rewrite Hfalsy.
Qed.

(** X6.  [list_events_by_creator] for a present email answers with
    exactly the stored Events whose creatorEmail is that email, in
    ascending order of eventDate; for an absent or empty email it answers
    400 without a store call.  It never changes the database. *)
Theorem creator_listing_is_sorted (db : Db) :
  (forall u,
     u <> EmptyString ->
     exists l,
       list_events_by_creator (Some u) db
       = ({| status := 200; payload := EventList (length l) l |}, db,
          [(events_name, m_find)])
       /\ l ≡ₚ List.filter (fun e => bool_decide (Event.creatorEmail e = u))
                 (events db)
       /\ (forall e, e ∈ l <-> e ∈ events db /\ Event.creatorEmail e = u)
       /\ StronglySorted
            (fun a b => Event.eventDate a <= Event.eventDate b) l)
  /\ (forall email,
        truthy email = false ->
        list_events_by_creator email db
        = ({| status := 400; payload := Failure "User email is required." |},
           db, [])).
Proof.
  split.
  - intros u Hu.
    exists (sort_by Event.eventDate
              (List.filter (fun e => bool_decide (Event.creatorEmail e = u))
                 (events db))).
    split; [|split; [|split]].
    + unfold list_events_by_creator. rewrite truthy_Some by done.
      unfold_store. by cbn.
    + apply sort_by_perm.
    + intros e.
      by rewrite elem_of_sort_by, elem_of_List_filter, bool_decide_eq_true.
    + apply sort_by_sorted.
  - intros email Hfalsy. unfold list_events_by_creator. by rewrite Hfalsy.
Qed.

(** ** The checks before an update or a deletion, and what deletion leaves *)

(** X7.  [update_event] and [delete_event] make the same checks in the
    same order: when the id is malformed or requestorEmail missing
    (ValidationError), the id resolves to no Event (NotFound) or the
    requestor is not the creator (Forbidden), both fail with that kind and
    the same status and change nothing; [delete_event] succeeds exactly
    when none of these applies. *)
Theorem update_and_delete_share_checks (db : Db) (id : string) (now : Z)
    (body : Body.t) :
  (forall k,
     update_precheck id body db = Some k ->
     classify (update_event id now body db).1.1 = Some k
     /\ classify (delete_event id body db).1.1 = Some k
     /\ status (update_event id now body db).1.1
        = status (delete_event id body db).1.1
     /\ (update_event id now body db).1.2 = db
     /\ (delete_event id body db).1.2 = db)
  /\ (update_precheck id body db = None
      <-> status (delete_event id body db).1.1 = 200%nat).
Proof.
  unfold update_precheck, update_event, delete_event.
  destruct (ObjectId_isValid id); cbn [negb];
    [|split; [by intros k [= <-]|done]].
  destruct (truthy (Body.requestorEmail body)); cbn [negb];
    [|split; [by intros k [= <-]|done]].
  unfold_store. cbn.
  destruct (first_match (by_id _) (events db)) as [e|]; cbn;
    [|split; [intros k [= <-]; by destruct db|done]].
  destruct (bool_decide _); cbn;
    [split; [intros k [= <-]; by destruct db|done]|].
  split; [done|]. done.
Qed.

(** X8.  After a successful [delete_event] on the id of a stored Event,
    no stored Event carries that id: [get_event], a further [update_event]
    or [delete_event] with a requestorEmail, and [join_event] with a
    userEmail all answer 404 for it. *)
Theorem deleted_event_is_gone (db : Db) (e : Event.t) (id : string)
    (body : Body.t) :
  ids_unique db -> e ∈ events db -> id_of id e -> id <> EmptyString ->
  status (delete_event id body db).1.1 = 200%nat ->
  let db' := (delete_event id body db).1.2 in
  (ObjectId_new id ∉ Event._id <$> events db')
  /\ (get_event id db').1.1
     = {| status := 404; payload := Failure "Event not found." |}
  /\ (forall now body',
        truthy (Body.requestorEmail body') = true ->
        (update_event id now body' db').1.1
        = {| status := 404; payload := Failure "Event not found." |}
        /\ (delete_event id body' db').1.1
           = {| status := 404; payload := Failure "Event not found." |})
  /\ (forall fresh joinedAt body',
        Body.eventId body' = Some id ->
        truthy (Body.userEmail body') = true ->
        (join_event fresh joinedAt body' db').1.1
        = {| status := 404; payload := Failure "Event not found." |}).
Proof.
  intros Hu He [Hvalid Hid] Hid0 Hst db'. subst db'.
  destruct (delete_event_effect db id body)
    as [[_ Hst']|(e0 & _ & _ & _ & _ & ->)]; [done|].
  assert (first_match (by_id (ObjectId_new id))
            (delete_first (by_id (ObjectId_new id)) (events db)) = None)
    as Hgone.
  { rewrite delete_first_by_id by done. apply first_match_None.
    intros d [_ Hd]%elem_of_List_filter. by apply negb_true_iff. }
  split; [by apply not_elem_first_match_by_id|]. cbn [fst snd events].
  split; [|split].
  - unfold get_event. rewrite Hvalid. unfold_store. cbn. by rewrite Hgone.
  - intros now body' Hreq. unfold update_event, delete_event.
    rewrite Hvalid, Hreq. unfold_store. cbn. by rewrite Hgone.
  - intros fresh joinedAt body' Hbody Hreq. unfold join_event.
    rewrite Hbody, Hreq, truthy_Some by done.
    change (str (Some id)) with id. rewrite Hvalid.
    unfold_store. cbn. by rewrite Hgone.
Qed.

(** ** Users *)

Lemma no_user_first_match (email : string) (l : list User.t) :
  email ∉ User.email <$> l <-> first_match (by_email (Some email)) l = None.
Proof.
  rewrite first_match_None. split.
  - intros H u Hu. destruct (by_email (Some email) u) eqn:Hq; [|done].
    apply by_email_true in Hq. injection Hq as Hq. exfalso. apply H.
    rewrite <- Hq. by apply list_elem_of_fmap_2.
  - intros H (u & -> & Hu)%list_elem_of_fmap. specialize (H u Hu).
    by rewrite (proj2 (by_email_true (Some (User.email u)) u)) in H.
Qed.

(** X9.  [sync_user] with an email under which no User is stored inserts
    one User with that email, role "user", the request's displayName and
    photoURL (empty when absent) and the two clock readings as createdAt
    and updatedAt, and answers with its public view; [get_user] on that
    email then returns the same view with createdAt, while on an email no
    stored User carries [get_user] answers 404. *)
Theorem synced_user_is_fetched (db : Db) (fresh : ObjectId) (now1 now2 : Z)
    (body : Body.t) (email : string) :
  Body.email body = Some email -> email <> EmptyString ->
  email ∉ User.email <$> users db ->
  let u := User.mk fresh email (str (Body.displayName body))
             (str (Body.photoURL body)) "user" now1 now2 in
  let synced := sync_user fresh now1 now2 body db in
  synced.1.1 = {| status := 200; payload := UserDoc (view u None) |}
  /\ synced.1.2 = mkDb (events db) (joinedEvents db) (users db ++ [u])
  /\ get_user email synced.1.2
     = ({| status := 200; payload := UserDoc (view u (Some now1)) |},
        synced.1.2, [(users_name, m_findOne)])
  /\ get_user email db
     = ({| status := 404; payload := Failure "User not found." |}, db,
        [(users_name, m_findOne)]).
Proof.
  intros Hbody Hne Hnew%no_user_first_match u synced. subst synced.
  destruct (sync_user_new db fresh now1 now2 body email Hbody Hne Hnew)
    as (Hres & Hdb & Hfound).
  split; [done|]. split; [done|]. split.
  - unfold get_user. unfold_store. cbn. unfold user_of in Hfound.
    by rewrite Hfound.
  - unfold get_user. unfold_store. cbn. by rewrite Hnew.
Qed.

(** What [sync_user] and [set_user_role] do to the users: nothing, a
    [$set] on the first User matching an email that keeps the email, or
    the insertion of a User under an email that had none. *)
Lemma user_handlers_effect (db : Db) :
  (forall fresh now1 now2 body,
     users (sync_user fresh now1 now2 body db).1.2 = users db
     \/ (exists email,
           users (sync_user fresh now1 now2 body db).1.2
           = update_first (by_email email)
               (sync_set (Body.displayName body) (Body.photoURL body) now1)
               (users db))
     \/ (exists u,
           users (sync_user fresh now1 now2 body db).1.2 = users db ++ [u]
           /\ (User.email u ∉ User.email <$> users db)
           /\ User.role u = "user"))
  /\ (forall email now body,
        users (set_user_role email now body db).1.2 = users db
        \/ (resolves_to_admin (Body.requestorEmail body) db = true
            /\ users (set_user_role email now body db).1.2
               = update_first (by_email (Some email))
                   (fun u =>
                      User.mk (User._id u) (User.email u)
                        (User.displayName u) (User.photoURL u)
                        (str (Body.role body)) (User.createdAt u) now)
                   (users db))).
Proof.
  split.
  - intros fresh now1 now2 body. unfold sync_user.
    destruct (truthy (Body.email body)) eqn:He; [|by left].
    apply truthy_str in He as [He He0]. unfold_store. cbn.
    destruct (first_match (by_email (Body.email body)) (users db))
      as [u|] eqn:Hu; cbn.
    + right; left. exists (Body.email body).
      by destruct (first_match _ (update_first _ _ _)).
    + right; right. eexists. split; [reflexivity|]. split; [|done].
      cbn. apply no_user_first_match. by rewrite <- He.
  - intros email now body. unfold set_user_role.
    destruct (_ || _); [by left|]. unfold_store. cbn. rewrite admin_check.
    unfold resolves_to_admin, user_of.
    destruct (match first_match _ (users db) with
              | Some u => bool_decide (User.role u = "admin")
              | None => false end); cbn; [|by left].
    right. split; [done|].
    by destruct (first_match (by_email (Some email)) (users db)).
Qed.

(** X10.  Every request keeps the User emails pairwise distinct:
    [sync_user] inserts only under an email that no stored User carries,
    and no handler rewrites an email. *)
Theorem users_stay_unique (db : Db) (r : Request) :
  users_unique db -> users_unique (handle r db).1.2.
Proof.
  unfold users_unique. intros Hu.
  pose proof (read_only_handlers db)
    as (H1 & H2 & H3 & H4 & H5 & H6 & H7 & H8 & H9).
  pose proof (user_handlers_effect db) as [Hs Hr].
  destruct r; simpl handle;
    rewrite ?H1, ?H2, ?H3, ?H4, ?H5, ?H6, ?H7, ?H8, ?H9; try done.
  - destruct (Hs fresh now1 now2 body) as [->|[[email ->]|(u & -> & Hnew & _)]];
      [done| |].
    + by rewrite fmap_update_first.
    + rewrite fmap_app. apply NoDup_app. split; [done|].
      split; [|apply NoDup_singleton].
      intros x Hx ->%list_elem_of_singleton. done.
  - destruct (Hr email now body) as [->|[_ ->]]; [done|].
    by rewrite fmap_update_first.
  - by destruct (create_event_effect db fresh now createdAt body)
      as [(-> & _)|(d & _ & _ & _ & _ & ->)].
  - by destruct (update_event_effect db id now body)
      as [[-> _]|(e & d & _ & _ & _ & _ & _ & _ & ->)].
  - by destruct (join_event_effect db fresh joinedAt body)
      as [[_ ->]|(id & u & e & _ & _ & _ & _ & _ & _ & _ & _ & ->)].
  - by destruct (delete_event_effect db id body)
      as [[-> _]|(e & _ & _ & _ & _ & ->)].
Qed.

Lemma elem_of_update_first {A} (q : A -> bool) set l x :
  x ∈ update_first q set l -> x ∈ l \/ exists d, d ∈ l /\ x = set d.
Proof.
  induction l as [|y l IH]; simpl; [by left|].
  destruct (q y).
  - intros [->|H]%elem_of_cons.
    + right. exists y. split; [left|done].
    + left. by right.
  - intros [->|H]%elem_of_cons; [left; left|].
    destruct (IH H) as [?|(d & ? & ?)]; [left; by right|].
    right. exists d. split; [by right|done].
Qed.

(** X11.  While no stored User has the role "admin", no request makes
    one: [sync_user] inserts with role "user" and never rewrites a role,
    and [set_user_role] is refused unless an admin asks. *)
Theorem no_admin_is_ever_made (db : Db) (r : Request) :
  no_admin db -> no_admin (handle r db).1.2.
Proof.
  unfold no_admin. intros Hno.
  pose proof (read_only_handlers db)
    as (H1 & H2 & H3 & H4 & H5 & H6 & H7 & H8 & H9).
  pose proof (user_handlers_effect db) as [Hs Hr].
  destruct r; simpl handle;
    rewrite ?H1, ?H2, ?H3, ?H4, ?H5, ?H6, ?H7, ?H8, ?H9; try done.
  - destruct (Hs fresh now1 now2 body) as [->|[[email ->]|(u & -> & _ & Hrole)]];
      [done| |].
    + intros x [?|(d & Hd & ->)]%elem_of_update_first; [auto|].
      simpl. auto.
    + intros x [?|Hx%list_elem_of_singleton]%elem_of_app; [auto|].
      subst x. by rewrite Hrole.
  - destruct (Hr email now body) as [->|[Hadmin _]]; [done|].
    exfalso. unfold resolves_to_admin, user_of in Hadmin.
    destruct (first_match _ (users db)) as [u|] eqn:Hu; [|done].
    apply bool_decide_eq_true in Hadmin.
    apply first_match_Some in Hu as [Hu _]. by apply (Hno u).
  - by destruct (create_event_effect db fresh now createdAt body)
      as [(-> & _)|(d & _ & _ & _ & _ & ->)].
  - by destruct (update_event_effect db id now body)
      as [[-> _]|(e & d & _ & _ & _ & _ & _ & _ & ->)].
  - by destruct (join_event_effect db fresh joinedAt body)
      as [[_ ->]|(id & u & e & _ & _ & _ & _ & _ & _ & _ & _ & ->)].
  - by destruct (delete_event_effect db id body)
      as [[-> _]|(e & _ & _ & _ & _ & ->)].
Qed.

(** X12.  When an admin asks for a role of the enum on an email that
    resolves to a stored User [u], [set_user_role] answers 200 after one
    lookup and one update, and the database differs in that one document
    only: [u] with the new role and updatedAt set to the clock reading,
    every other field kept. *)
Theorem admin_sets_the_role (db : Db) (email newRole : string) (now : Z)
    (body : Body.t) (u : User.t) :
  Body.role body = Some newRole -> newRole = "user" \/ newRole = "admin" ->
  resolves_to_admin (Body.requestorEmail body) db = true ->
  user_of (Some email) db = Some u ->
  exists i,
    users db !! i = Some u
    /\ set_user_role email now body db
       = ({| status := 200;
             payload := Done "User role updated successfully." |},
          mkDb (events db) (joinedEvents db)
            (<[i := User.mk (User._id u) (User.email u) (User.displayName u)
                      (User.photoURL u) newRole (User.createdAt u) now]>
               (users db)),
          [(users_name, m_findOne); (users_name, m_updateOne)]).
Proof.
  intros Hrole Henum Hadmin Hu. unfold user_of in Hu.
  destruct (update_first_insert (by_email (Some email))
              (fun u => User.mk (User._id u) (User.email u)
                          (User.displayName u) (User.photoURL u) newRole
                          (User.createdAt u) now) _ _ Hu) as (i & Hi & Hupd).
  exists i. split; [done|]. unfold set_user_role.
  rewrite role_check, Hrole.
  rewrite bool_decide_eq_true_2 by (destruct Henum as [->| ->]; auto).
  cbn [negb]. unfold_store. cbn. rewrite admin_check.
  unfold resolves_to_admin, user_of in Hadmin. rewrite Hadmin. cbn.
  rewrite Hu. cbn. by rewrite Hupd.
Qed.

(** X13.  [list_all_users] answers 400 without a store call when
    requestorEmail is absent or empty, 403 after one lookup when it does
    not resolve to an admin, and otherwise 200 with every stored User, in
    order, reduced to [_id], email, displayName, photoURL, role and
    createdAt.  It never changes the database. *)
Theorem user_listing_is_for_admins (db : Db) (requestorEmail : Field) :
  list_all_users requestorEmail db
  = if negb (truthy requestorEmail)
    then ({| status := 400;
             payload := Failure "Requestor email is required." |}, db, [])
    else if negb (resolves_to_admin requestorEmail db)
    then ({| status := 403;
             payload := Failure "Only admins can view all users." |}, db,
          [(users_name, m_findOne)])
    else ({| status := 200; payload := UserList (projection <$> users db) |},
          db, [(users_name, m_findOne); (users_name, m_find)]).
Proof.
  unfold list_all_users. destruct (truthy requestorEmail); [|done].
  cbn [negb]. unfold_store. cbn. rewrite admin_check.
  unfold resolves_to_admin, user_of.
  destruct (match first_match _ (users db) with
            | Some u => bool_decide (User.role u = "admin")
            | None => false end); cbn; [|done].
  by rewrite List_filter_all.
Qed.

(** ** What every request does and does not do *)

Ltac split_handler :=
  repeat match goal with
         | |- context [if ?b then _ else _] => destruct b eqn:?; cbn
         | |- context [match ?x with Some _ => _ | None => _ end] =>
             destruct x eqn:?; cbn
         end.

(** X14.  The requests of the nine querying routes (both forms of the
    statistics, one user, all users, the three event listings, one event,
    a user's joins) leave the database as it was and make only reading
    calls on the store. *)
Theorem queries_only_read (db : Db) (r : Request) :
  is_query r = true ->
  (handle r db).1.2 = db
  /\ forallb (fun c : Call => is_read c.2) (handle r db).2 = true.
Proof.
  destruct r; try discriminate; intros _; simpl handle;
    unfold compute_statistics, compute_statistics_distinct, get_user,
      list_all_users, list_events, list_upcoming_events,
      list_events_by_creator, get_event, list_joined_events;
    unfold_store; cbn; split_handler; done.
Qed.

Lemma sync_user_answers_200 (db : Db) fresh now1 now2 body :
  truthy (Body.email body) = true ->
  status (sync_user fresh now1 now2 body db).1.1 = 200%nat.
Proof.
  intros [He Hne]%truthy_str.
  destruct (user_of (Some (str (Body.email body))) db) as [u|] eqn:Hu.
  - destruct (sync_user_existing db fresh now1 now2 body _ u He Hne Hu)
      as (i & u' & _ & _ & -> & _). done.
  - destruct (sync_user_new db fresh now1 now2 body _ He Hne Hu)
      as (-> & _). done.
Qed.

(** X15.  Every request is answered 200 or 201, or else with a failure of
    status 400, 403 or 404 that leaves the database exactly as it was: a
    request that fails has written nothing.  With store calls that
    succeed, no handler answers 500. *)
Theorem failed_requests_write_nothing (db : Db) (r : Request) :
  status (handle r db).1.1 = 200%nat
  \/ status (handle r db).1.1 = 201%nat
  \/ ((handle r db).1.2 = db
      /\ (exists message, payload (handle r db).1.1 = Failure message)
      /\ (status (handle r db).1.1 = 400%nat
          \/ status (handle r db).1.1 = 403%nat
          \/ status (handle r db).1.1 = 404%nat)).
Proof.
  destruct r; simpl handle.
  - by left.
  - by left.
  - destruct (truthy (Body.email body)) eqn:He.
    + left. by apply sync_user_answers_200.
    + right; right. unfold sync_user. rewrite He. cbn. eauto 6.
  - unfold get_user. unfold_store. cbn. split_handler; [by left|].
    right; right. eauto 6.
  - unfold set_user_role. destruct (_ || _); cbn; [right; right; eauto 6|].
    unfold_store. cbn.
    destruct (match first_match _ (users db) with
              | Some rq => bool_decide (User.role rq <> "admin")
              | None => true end); cbn; [right; right; by eauto 6|].
    destruct (first_match (by_email (Some email)) (users db)) eqn:Hu; cbn;
      [by left|].
    right; right. rewrite update_first_no_match by done.
    split; [by destruct db|]. eauto 6.
  - unfold list_all_users. unfold_store. cbn. split_handler;
      try (by left); right; right; eauto 6.
  - by left.
  - destruct (create_event_effect db fresh now createdAt body)
      as [(Hdb & _ & Hst & _)|(d & _ & _ & _ & Hst & _)]; [|by right; left].
    right; right. split; [done|]. split; [|by left].
    revert Hst. unfold create_event. unfold_store. cbn. split_handler;
      try discriminate; eauto.
  - by left.
  - by left.
  - unfold list_events_by_creator. unfold_store. cbn. split_handler;
      [right; right; eauto 6 | by left].
  - unfold get_event. unfold_store. cbn. split_handler;
      try (by left); right; right; eauto 6.
  - unfold update_event. unfold_store. cbn. split_handler;
      try (by left); right; right; (split; [by destruct db|]); eauto 6.
  - unfold join_event. unfold_store. cbn. split_handler;
      try (by right; left); right; right; (split; [by destruct db|]);
      eauto 6.
  - unfold delete_event. unfold_store. cbn. split_handler;
      try (by left); right; right; (split; [by destruct db|]); eauto 6.
  - unfold list_joined_events. unfold_store. cbn. split_handler;
      [right; right; eauto 6 | by left].
Qed.

(** ** Events in the listings, seeding and the counts *)

(** X16.  An Event that [create_event] has just stored is in the answer of
    [list_events], and in the answer of [list_upcoming_events] at the
    clock reading of its creation and at every earlier one. *)
Theorem created_event_is_upcoming (db : Db) (fresh : ObjectId)
    (now createdAt : Z) (body : Body.t) :
  status (create_event fresh now createdAt body db).1.1 = 201%nat ->
  let db' := (create_event fresh now createdAt body db).1.2 in
  exists doc,
    events db' = events db ++ [doc]
    /\ doc ∈ events_of (list_events db').1.1
    /\ forall t, t <= now -> doc ∈ events_of (list_upcoming_events t db').1.1.
Proof.
  intros Hst db'. subst db'.
  destruct (create_event_effect db fresh now createdAt body)
    as [(_ & _ & Hst' & _)|(d & _ & Hlt & _ & _ & ->)]; [congruence|].
  eexists. split; [reflexivity|].
  unfold list_events, list_upcoming_events. unfold_store.
  cbn -[sort_by]. split.
  - rewrite elem_of_sort_by, elem_of_List_filter, elem_of_app.
    split; [right; by apply list_elem_of_singleton | done].
  - intros t Ht.
    rewrite elem_of_sort_by, elem_of_List_filter, elem_of_app.
    split; [right; by apply list_elem_of_singleton|].
    apply Z.ltb_lt. simpl. lia.
Qed.

(** X17.  [seed_demo_events] always answers 200 with insertedCount 18: it
    appends eighteen documents after whatever the events hold, without
    looking for earlier copies, and touches neither joins nor users.  Each
    document is created at the clock reading and dated between 3 and 20
    calendar days after it; when moving a date forward by whole days gives
    a later date, all eighteen are upcoming at that reading. *)
Theorem seeding_appends_upcoming_events (db : Db) (fresh : nat -> ObjectId)
    (now : Z) :
  exists docs,
    seed_demo_events fresh now db
    = ({| status := 200;
          payload := Seeded "Demo events inserted successfully." 18 |},
       mkDb (events db ++ docs) (joinedEvents db) (users db),
       [(events_name, m_insertMany)])
    /\ Event._id <$> docs = fresh <$> seq 0 18
    /\ Forall (fun d => Event.createdAt d = now
                        /\ exists k, 3 <= k <= 20
                                     /\ Event.eventDate d = addDays now k)
         docs
    /\ ((forall k, 0 < k -> now < addDays now k) ->
        forall d, d ∈ docs ->
                  d ∈ events_of
                        (list_upcoming_events now
                           (seed_demo_events fresh now db).1.2).1.1).
Proof.
  eexists. split; [reflexivity|]. split; [reflexivity|].
  assert (Forall (fun d => Event.createdAt d = now
                           /\ exists k, 3 <= k <= 20
                                        /\ Event.eventDate d = addDays now k)
            (imap (fun i d => d (addDays now) now (fresh i)) demoEvents))
    as Hdocs.
  { repeat constructor; eexists; (split; [|reflexivity]); lia. }
  split; [exact Hdocs|].
  intros Hforward d Hd. unfold list_upcoming_events, seed_demo_events.
  unfold_store. cbn -[sort_by demoEvents imap].
  rewrite elem_of_sort_by, elem_of_List_filter, elem_of_app.
  split; [by right|].
  apply (proj1 (Forall_forall _ _) Hdocs) in Hd as (_ & k & Hk & ->).
  apply Z.ltb_lt, Hforward. lia.
Qed.




(** ** Integrity of the collections *)

(** X19.  Every request keeps the [_id]s of the stored Events pairwise
    distinct, the ids given to inserted documents being new: insertions
    append documents with new ids, an update keeps the [_id], a deletion
    removes. *)
Theorem event_ids_stay_unique (db : Db) (r : Request) :
  fresh_for db r -> ids_unique db -> ids_unique (handle r db).1.2.
Proof.
  intros Hfresh. by destruct (handle_preserves db r Hfresh) as (H & _ & _).
Qed.

Lemma elem_of_delete_first_other {A} (q : A -> bool) l x :
  x ∈ l -> q x = false -> x ∈ delete_first q l.
Proof.
  induction l as [|y l IH]; [done|]. simpl.
  intros [->|Hx]%elem_of_cons Hq.
  - rewrite Hq. left.
  - destruct (q y); [done|]. right. by apply IH.
Qed.

(** X20.  Every request keeps the Joins referring to stored Events: a Join
    is inserted only for an Event found in the store, the deletion of an
    Event removes every Join on its id, and no other handler removes an
    Event or rewrites an [_id] or an eventId. *)
Theorem joins_keep_referring (db : Db) (r : Request) :
  joins_refer db -> joins_refer (handle r db).1.2.
Proof.
  unfold joins_refer. intros Href.
  pose proof (read_only_handlers db)
    as (H1 & H2 & H3 & H4 & H5 & H6 & H7 & H8 & H9).
  pose proof (user_handlers_keep_events db) as [Hs Hr].
  destruct r; simpl handle;
    rewrite ?H1, ?H2, ?H3, ?H4, ?H5, ?H6, ?H7, ?H8, ?H9; try done.
  - by destruct (Hs fresh now1 now2 body) as [-> ->].
  - by destruct (Hr email now body) as [-> ->].
  - destruct (seed_demo_events_effect db fresh now) as (docs & -> & _).
    simpl. intros j Hj. rewrite fmap_app, elem_of_app. left. auto.
  - destruct (create_event_effect db fresh now createdAt body)
      as [(-> & _)|(d & _ & _ & _ & _ & ->)]; [done|].
    simpl. intros j Hj. rewrite fmap_app, elem_of_app. left. auto.
  - destruct (update_event_effect db id now body)
      as [[-> _]|(e & d & _ & _ & _ & _ & _ & _ & ->)]; [done|].
    simpl. intros j Hj. rewrite fmap_update_first by done. auto.
  - destruct (join_event_effect db fresh joinedAt body)
      as [[_ ->]|(id & u & e & _ & _ & _ & _ & _ & Hfind & _ & _ & ->)];
      [done|].
    simpl. intros j [Hj|Hj%list_elem_of_singleton]%elem_of_app; [auto|].
    subst j. simpl. apply list_elem_of_fmap_2.
    by destruct (first_match_Some _ _ _ Hfind).
  - destruct (delete_event_effect db id body)
      as [[-> _]|(e & _ & _ & _ & _ & ->)]; [done|].
    simpl. intros j [Hj Hne]%elem_of_List_filter.
    apply negb_true_iff, bool_decide_eq_false in Hne.
    destruct (proj1 (list_elem_of_fmap _ _ _) (Href j Hj)) as (x & Hx & Hin).
    rewrite Hx. apply list_elem_of_fmap_2.
    apply elem_of_delete_first_other; [done|].
    apply by_id_false. congruence.
Qed.

(** ** The middleware *)

(** X21.  While the database is not ready, a missing MONGO_URI or a
    failing connection makes the server answer every route, the root
    included, with 500 "Database initialization failed." and the thrown
    message, without reaching the route, and it stays not ready, so that
    the next request tries again.  When the connection succeeds the route
    is served and the server is ready; once ready, the route is served
    whatever the URI and the connection would do. *)
Theorem server_fails_closed (db : Db) (rt : Route) (uri : Field)
    (connect : option string) :
  (truthy uri = false ->
   serve uri connect false rt db
   = ((InitFailure
         {| status := 500;
            payload := Failure "Database initialization failed." |}
         "MONGO_URI is not set in environment variables.", false), db, []))
  /\ (forall message,
        truthy uri = true -> connect = Some message ->
        serve uri connect false rt db
        = ((InitFailure
              {| status := 500;
                 payload := Failure "Database initialization failed." |}
              message, false), db, []))
  /\ (truthy uri = true -> connect = None ->
      serve uri connect false rt db
      = (((route rt db).1.1, true), (route rt db).1.2, (route rt db).2))
  /\ serve uri connect true rt db
     = (((route rt db).1.1, true), (route rt db).1.2, (route rt db).2).
Proof.
  unfold serve, initDb. repeat split.
  - by intros ->.
  - by intros message -> ->.
  - intros -> ->. cbn. unfold mbind, mret, M_bind, M_ret.
    destruct (route rt db) as [[s db'] calls]. cbn. by rewrite app_nil_r.
  - cbn. unfold mbind, mret, M_bind, M_ret.
    destruct (route rt db) as [[s db'] calls]. cbn. by rewrite app_nil_r.
Qed.

(** X22.  After a successful [update_event] on the id of a stored Event
    [e], [get_event] on that id returns [e] with the six fields of the
    request, the date as parsed, and its own [_id], creatorEmail and
    createdAt. *)
Theorem updated_event_is_fetched (db : Db) (e : Event.t) (id : string)
    (now : Z) (body : Body.t) :
  ids_unique db -> e ∈ events db -> id_of id e ->
  status (update_event id now body db).1.1 = 200%nat ->
  exists d,
    Date_parse (str (Body.eventDate body)) = Some d /\ now < d
    /\ get_event id (update_event id now body db).1.2
       = ({| status := 200;
             payload :=
               EventDoc
                 (Event.mk (Event._id e) (str (Body.title body))
                    (str (Body.description body))
                    (str (Body.eventType body))
                    (str (Body.thumbnail body)) (str (Body.location body))
                    d (Event.creatorEmail e) (Event.createdAt e)) |},
          (update_event id now body db).1.2, [(events_name, m_findOne)]).
Proof.
  intros Hu He Hid Hst.
  pose proof (stored_event_found _ _ _ Hu He Hid) as Hfind.
  destruct Hid as [Hvalid Hid].
  destruct (update_event_effect db id now body)
    as [[_ Hst']|(e0 & d & _ & Hfind' & _ & Hd & Hlt & _ & ->)]; [done|].
  rewrite Hfind in Hfind'. injection Hfind' as <-.
  exists d. split; [done|]. split; [done|].
  unfold get_event. rewrite Hvalid. unfold_store. cbn.
  rewrite (first_match_update_first _ _ _ e Hfind); [done|].
  rewrite by_id_set_event_fields. by destruct (first_match_Some _ _ _ Hfind).
Qed.

End Service.

(** * The handlers on concrete requests *)

(** ** A session *)

(** The scenario of the specification, on an empty database, with the
    clock at 1700000000000: alice creates an event dated 2030; bob may not
    update it; alice may not move it to 2020; carol joins once, not twice;
    alice deletes it and carol's joins are gone. *)
Example scenario :
  let now := 1700000000000 in
  let E := Oid id_E in
  let alice date := event_body (Some "alice@x.com") (Some date) in
  let bob date := event_body (Some "bob@x.com") (Some date) in
  let carol := join_body (Some id_E) (Some "carol@x.com") in
  let s1 := create_event iso_sample E now now
              (alice "2030-01-01T00:00:00.000Z") empty_db in
  let s2 := update_event hex24 Oid iso_sample id_E now
              (bob "2030-01-01T00:00:00.000Z") s1.1.2 in
  let s3 := update_event hex24 Oid iso_sample id_E now
              (alice "2020-01-01T00:00:00.000Z") s2.1.2 in
  let s4 := join_event hex24 Oid (Oid id_F) now carol s3.1.2 in
  let s5 := join_event hex24 Oid (Oid id_F) now carol s4.1.2 in
  let s6 := delete_event hex24 Oid id_E (alice EmptyString) s5.1.2 in
  let s7 := list_joined_events (Some "carol@x.com") s6.1.2 in
  status s1.1.1 = 201%nat
  /\ (exists e, (get_event hex24 Oid id_E s1.1.2).1.1
                = {| status := 200; payload := EventDoc e |}
                /\ Event.creatorEmail e = "alice@x.com"
                /\ Event.eventDate e = 1893456000000)
  /\ classify s2.1.1 = Some Forbidden
  /\ classify s3.1.1 = Some ValidationError
  /\ status s4.1.1 = 201%nat
  /\ classify s5.1.1 = Some Conflict
  /\ length (joinedEvents s5.1.2) = 1%nat
  /\ status s6.1.1 = 200%nat
  /\ s6.1.2 = empty_db
  /\ s7.1.1 = {| status := 200; payload := JoinedList 0 [] |}.
Proof. vm_compute. repeat split. eexists. repeat split. Qed.

Example seed_inserts_eighteen :
  (seed_demo_events utc_addDays batch_id 0 empty_db).1.1
  = {| status := 200;
       payload := Seeded "Demo events inserted successfully." 18 |}.
Proof. reflexivity. Qed.

(** ** The statements at concrete inputs *)

Lemma sample_db_ids_unique : ids_unique sample_db.
Proof. unfold ids_unique. simpl. apply NoDup_singleton. Defined.

Lemma alice_event_stored : alice_event ∈ events sample_db.
Proof. simpl. apply list_elem_of_here. Defined.

Lemma id_E_of_alice_event : id_of hex24 Oid id_E alice_event.
Proof. split; reflexivity. Defined.

(** C10 at the id "42". *)
Lemma invalid_id_witness :
  hex24 "42" = false
  /\ get_event hex24 Oid "42" sample_db
     = ({| status := 400; payload := Failure "Invalid event id." |},
        sample_db, []).
Proof.
  split; [reflexivity|].
  exact (proj1 (invalid_id_is_a_validation_error hex24 Oid iso_sample "42"
                  sample_db eq_refl)).
Defined.

(** C1 as stated fails for the empty requestorEmail.  After alice has
    created an event, a request whose requestorEmail is the empty string,
    which is not alice's email, is answered 400 by [update_event] and
    [delete_event], not Forbidden. *)
Lemma empty_requestor_is_not_forbidden :
  let now := 1700000000000 in
  let created :=
    create_event iso_sample (Oid id_E) now now
      (event_body (Some "alice@x.com") (Some "2030-01-01T00:00:00.000Z"))
      empty_db in
  let db := created.1.2 in
  let body := event_body (Some EmptyString) (Some "2030-01-01T00:00:00.000Z") in
  status created.1.1 = 201%nat
  /\ (exists e, events db = [e] /\ Event._id e = Oid id_E
                /\ Event.creatorEmail e = "alice@x.com")
  /\ EmptyString <> "alice@x.com"
  /\ (update_event hex24 Oid iso_sample id_E now body db).1.1
     = {| status := 400; payload := Failure "requestorEmail is required." |}
  /\ ~ fails Forbidden (update_event hex24 Oid iso_sample id_E now body db).1
  /\ (delete_event hex24 Oid id_E body db).1.1
     = {| status := 400; payload := Failure "requestorEmail is required." |}
  /\ ~ fails Forbidden (delete_event hex24 Oid id_E body db).1.
Proof.
  intros now created db body.
  split; [reflexivity|]. split; [eexists; repeat split|].
  split; [discriminate|]. split; [reflexivity|]. split; [discriminate|].
  split; [reflexivity|discriminate].
Qed.

(** C1, amended, for bob on alice's event. *)
Lemma non_creator_witness :
  "bob@x.com" <> Event.creatorEmail alice_event /\ "bob@x.com" <> EmptyString
  /\ update_event hex24 Oid iso_sample id_E 1700000000000
       (event_body (Some "bob@x.com") (Some "2030-01-01T00:00:00.000Z"))
       sample_db
     = ({| status := 403;
           payload := Failure "You are not allowed to update this event." |},
        sample_db, [(events_name, m_findOne)]).
Proof.
  assert ("bob@x.com" <> Event.creatorEmail alice_event) as Hne
    by discriminate.
  assert ("bob@x.com" <> EmptyString) as Hr by discriminate.
  split; [exact Hne|]. split; [exact Hr|].
  exact (proj1 (proj1 (non_creator_is_forbidden hex24 Oid iso_sample
                         sample_db alice_event id_E "bob@x.com"
                         sample_db_ids_unique alice_event_stored
                         id_E_of_alice_event Hne) Hr)
           1700000000000
           (event_body (Some "bob@x.com") (Some "2030-01-01T00:00:00.000Z"))
           eq_refl).
Defined.

(** C2 on a role outside the enum. *)
Lemma set_user_role_witness :
  let body := role_body (Some "owner") (Some "root@x.com") in
  set_user_role_outcome "dave@x.com" (Body.role body)
    (Body.requestorEmail body) sample_db = Some ValidationError
  /\ classify (set_user_role "dave@x.com" 1700000000000 body sample_db).1.1
     = Some ValidationError
  /\ (set_user_role "dave@x.com" 1700000000000 body sample_db).1.2
     = sample_db.
Proof.
  intros body. split; [reflexivity|].
  destruct (set_user_role_failures "dave@x.com" 1700000000000 body sample_db)
    as (Hk & Hdb & _).
  split; [exact Hk|]. apply Hdb. discriminate.
Defined.

Lemma sample_db_emails_present : emails_present sample_db.
Proof.
  split; simpl; intros x Hx; apply list_elem_of_singleton in Hx; subst x;
    discriminate.
Defined.

(** C3 for carol, who has joined alice's event. *)
Lemma duplicate_join_witness :
  emails_present sample_db
  /\ carol_join ∈ joinedEvents sample_db
  /\ join_key carol_join = (Oid id_E, "carol@x.com")
  /\ fails Conflict
       (join_event hex24 Oid (Oid id_F) 1700000002000
          (join_body (Some id_E) (Some "carol@x.com")) sample_db).1.
Proof.
  assert (carol_join ∈ joinedEvents sample_db) as Hj
    by (simpl; apply list_elem_of_here).
  split; [exact sample_db_emails_present|].
  split; [exact Hj|]. split; [reflexivity|].
  assert (id_E <> EmptyString) as Hid by discriminate.
  exact (proj2 (proj1 (duplicate_join_is_a_conflict hex24 Oid iso_sample
                         utc_addDays)
                  sample_db id_E "carol@x.com" alice_event carol_join
                  (Oid id_F) 1700000002000
                  (join_body (Some id_E) (Some "carol@x.com"))
                  sample_db_emails_present
                  eq_refl eq_refl Hid eq_refl eq_refl Hj eq_refl)).
Defined.

(** C4 for alice deleting her event. *)
Lemma delete_event_witness :
  let body := event_body (Some "alice@x.com") None in
  status (delete_event hex24 Oid id_E body sample_db).1.1 = 200%nat
  /\ forall u j,
       j ∈ joins_of (list_joined_events u
                       (delete_event hex24 Oid id_E body sample_db).1.2).1.1
       -> Join.eventId j <> Event._id alice_event.
Proof.
  intros body. split; [reflexivity|].
  exact (proj2 (proj2 (proj2 (proj2
           (delete_event_cascades hex24 Oid sample_db alice_event id_E body
              sample_db_ids_unique alice_event_stored id_E_of_alice_event
              eq_refl))))).
Defined.

(** C5 as stated fails for [update_event].  After alice has created an
    event, an update with an unparseable date is answered NotFound on an
    id that resolves to no event, and Forbidden when bob sends it for
    alice's event; neither is a ValidationError. *)
Lemma bad_date_is_not_always_a_validation_error :
  let now := 1700000000000 in
  let created :=
    create_event iso_sample (Oid id_E) now now
      (event_body (Some "alice@x.com") (Some "2030-01-01T00:00:00.000Z"))
      empty_db in
  let db := created.1.2 in
  let body := event_body (Some "bob@x.com") (Some "next tuesday") in
  status created.1.1 = 201%nat
  /\ bad_date iso_sample now (Body.eventDate body)
  /\ (update_event hex24 Oid iso_sample id_F now body db).1.1
     = {| status := 404; payload := Failure "Event not found." |}
  /\ ~ fails ValidationError
         (update_event hex24 Oid iso_sample id_F now body db).1
  /\ (update_event hex24 Oid iso_sample id_E now body db).1.1
     = {| status := 403;
          payload := Failure "You are not allowed to update this event." |}
  /\ ~ fails ValidationError
         (update_event hex24 Oid iso_sample id_E now body db).1.
Proof.
  intros now created db body.
  split; [reflexivity|]. split; [exact I|]. split; [reflexivity|].
  split; [discriminate|]. split; [reflexivity|discriminate].
Qed.

(** C5, amended, for alice moving her event to 2020. *)
Lemma event_date_witness :
  let now := 1700000000000 in
  let body := event_body (Some "alice@x.com")
                (Some "2020-01-01T00:00:00.000Z") in
  bad_date iso_sample now (Body.eventDate body)
  /\ fails ValidationError
       (create_event iso_sample (Oid id_F) now now body sample_db).1
  /\ classify (update_event hex24 Oid iso_sample id_E now body sample_db).1.1
     = Some ValidationError.
Proof.
  intros now body.
  assert (bad_date iso_sample now (Body.eventDate body)) as Hbad
    by (vm_compute; discriminate).
  split; [exact Hbad|].
  destruct (proj1 (event_date_is_validated hex24 Oid iso_sample sample_db
                     now body) Hbad) as [Hc Hu].
  split.
  - apply (Hc (Oid id_F) now).
  - apply (Hu id_E).
Defined.

(** C6 for alice updating her event. *)
Lemma update_event_witness :
  let now := 1700000000000 in
  let body := event_body (Some "alice@x.com")
                (Some "2030-01-01T00:00:00.000Z") in
  status (update_event hex24 Oid iso_sample id_E now body sample_db).1.1
  = 200%nat
  /\ joinedEvents (update_event hex24 Oid iso_sample id_E now body
                     sample_db).1.2
     = joinedEvents sample_db.
Proof.
  intros now body. split; [reflexivity|].
  destruct (update_event_frame hex24 Oid iso_sample sample_db alice_event
              id_E now body sample_db_ids_unique alice_event_stored
              id_E_of_alice_event eq_refl)
    as (i & d & e' & _ & _ & _ & _ & _ & Hj & _).
  exact Hj.
Defined.

(** The two revisions of [GET /stats] part on an empty email, which no
    handler stores: the [distinct] one counts it, the [aggregate] one
    drops it. *)
Example empty_email_in_the_two_revisions :
  let db := mkDb [blank_event] [] [] in
  totalUsers_of (compute_statistics db).1.1 = Some 0%nat
  /\ totalUsers_of (compute_statistics_distinct db).1.1 = Some 1%nat
  /\ union_cardinality db = 1%nat.
Proof. intros db. repeat split. Qed.

(** C7 on the sample database. *)
Lemma total_users_witness :
  emails_present sample_db
  /\ totalUsers_of (compute_statistics sample_db).1.1
     = Some (union_cardinality sample_db).
Proof.
  split; [exact sample_db_emails_present|].
  exact (proj1 (proj2 (total_users_counts_distinct_emails hex24 Oid
                         iso_sample utc_addDays))
           sample_db sample_db_emails_present).
Defined.

(** C8 for dave, synchronised twice. *)
Lemma sync_user_witness :
  let body := sync_body (Some "dave@x.com") (Some "Dave") None in
  let first := sync_user (Oid id_F) 1700000000000 1700000000001 body
                 sample_db in
  let second := sync_user (Oid id_F) 1700000005000 1700000005001 body
                  first.1.2 in
  Body.email body = Some "dave@x.com" /\ "dave@x.com" <> EmptyString
  /\ second.1.1 = first.1.1
  /\ user_of (Some "dave@x.com") second.1.2
     = Some (User.mk (Oid "64b7f0c2a1d3e4f5a6b7c8f1") "dave@x.com" "Dave"
               EmptyString
               "user" 1600000000000 1700000005000).
Proof.
  intros body first second.
  assert ("dave@x.com" <> EmptyString) as Hne by discriminate.
  split; [reflexivity|]. split; [exact Hne|].
  destruct (proj2 (sync_user_is_idempotent sample_db body "dave@x.com"
                     eq_refl Hne)
              (Oid id_F) 1700000000000 1700000000001
              (Oid id_F) 1700000005000 1700000005001)
    as (i & u1 & _ & _ & _ & Hres).
  split; [exact Hres|reflexivity].
Defined.

(** ** The further properties at concrete inputs *)

Lemma id_F_is_new : Oid id_F ∉ Event._id <$> events sample_db.
Proof. intros H. apply list_elem_of_singleton in H. discriminate. Defined.

Lemma id_E_present : id_E <> EmptyString.
Proof. discriminate. Defined.

(** X1: alice creates a second event, then fetches it. *)
Lemma created_event_witness :
  let now := 1700000000000 in
  let body := event_body (Some "alice@x.com")
                (Some "2030-01-01T00:00:00.000Z") in
  let db' := (create_event iso_sample (Oid id_F) now now body sample_db).1.2 in
  event_fields_present body = true /\ now < 1893456000000
  /\ get_event hex24 Oid id_F db'
     = ({| status := 200;
           payload := EventDoc (event_doc (Oid id_F) now body 1893456000000) |},
        db', [(events_name, m_findOne)]).
Proof.
  intros now body db'. split; [reflexivity|]. split; [reflexivity|].
  exact (proj2 (created_event_is_fetched hex24 Oid iso_sample sample_db
                  (Oid id_F) id_F now now 1893456000000 body
                  eq_refl eq_refl eq_refl eq_refl id_F_is_new
                  eq_refl eq_refl)).
Defined.

(** X2: a creation request without a date. *)
Lemma missing_field_witness :
  let body := event_body (Some "alice@x.com") None in
  event_fields_present body = false
  /\ create_event iso_sample (Oid id_F) 1700000000000 1700000000000 body
       sample_db
     = ({| status := 400; payload := Failure "All fields are required." |},
        sample_db, []).
Proof.
  intros body. split; [reflexivity|].
  exact (proj1 (missing_field_is_rejected hex24 Oid iso_sample sample_db
                  1700000000000 body (or_introl eq_refl))
           (Oid id_F) 1700000000000).
Defined.

(** X3: alice's event, fetched by its id. *)
Lemma get_event_witness :
  hex24 id_E = true
  /\ get_event hex24 Oid id_E sample_db
     = ({| status := 200; payload := EventDoc alice_event |}, sample_db,
        [(events_name, m_findOne)]).
Proof.
  split; [reflexivity|].
  exact (proj1 (get_event_finds_by_id hex24 Oid sample_db id_E eq_refl)
           alice_event sample_db_ids_unique alice_event_stored eq_refl).
Defined.

(** X4: erin joins alice's event. *)
Lemma join_event_witness :
  let body := join_body (Some id_E) (Some "erin@x.com") in
  let joined := join_event hex24 Oid (Oid id_F) 1700000003000 body
                  sample_db in
  ((Event._id alice_event, "erin@x.com")
     ∉ join_key <$> joinedEvents sample_db)
  /\ status joined.1.1 = 201%nat
  /\ joinDoc_of (Oid id_F) 1700000003000 "erin@x.com" alice_event
     ∈ joins_of (list_joined_events (Some "erin@x.com") joined.1.2).1.1.
Proof.
  intros body joined.
  assert ((Event._id alice_event, "erin@x.com")
            ∉ join_key <$> joinedEvents sample_db) as Hnew.
  { intros H. apply list_elem_of_singleton in H. discriminate. }
  assert ("erin@x.com" <> EmptyString) as Hu by discriminate.
  split; [exact Hnew|]. split; [reflexivity|].
  exact (proj2 (join_event_records_a_snapshot hex24 Oid sample_db id_E
                  "erin@x.com" alice_event (Oid id_F) 1700000003000 body
                  eq_refl eq_refl id_E_present Hu eq_refl eq_refl Hnew)).
Defined.

(** X5: carol's joins. *)
Lemma joined_listing_witness :
  "carol@x.com" <> EmptyString
  /\ exists l,
       (list_joined_events (Some "carol@x.com") sample_db).1.1
       = {| status := 200; payload := JoinedList (length l) l |}
       /\ forall j, j ∈ l <-> j ∈ joinedEvents sample_db
                              /\ Join.userEmail j = "carol@x.com".
Proof.
  assert ("carol@x.com" <> EmptyString) as Hu by discriminate.
  split; [exact Hu|].
  destruct (proj1 (joined_listing_is_sorted sample_db) "carol@x.com" Hu)
    as (l & Heq & _ & Hin & _).
  exists l. split; [|exact Hin]. rewrite Heq. reflexivity.
Defined.

(** X6: alice's events. *)
Lemma creator_listing_witness :
  "alice@x.com" <> EmptyString
  /\ exists l,
       (list_events_by_creator (Some "alice@x.com") sample_db).1.1
       = {| status := 200; payload := EventList (length l) l |}
       /\ forall e, e ∈ l <-> e ∈ events sample_db
                              /\ Event.creatorEmail e = "alice@x.com".
Proof.
  assert ("alice@x.com" <> EmptyString) as Hu by discriminate.
  split; [exact Hu|].
  destruct (proj1 (creator_listing_is_sorted sample_db) "alice@x.com" Hu)
    as (l & Heq & _ & Hin & _).
  exists l. split; [|exact Hin]. rewrite Heq. reflexivity.
Defined.

(** X7: bob on alice's event. *)
Lemma shared_checks_witness :
  let body := event_body (Some "bob@x.com") None in
  update_precheck hex24 Oid id_E body sample_db = Some Forbidden
  /\ classify (delete_event hex24 Oid id_E body sample_db).1.1
     = Some Forbidden.
Proof.
  intros body. split; [reflexivity|].
  exact (proj1 (proj2 (proj1 (update_and_delete_share_checks hex24 Oid
                                iso_sample sample_db id_E 1700000000000
                                body)
                         Forbidden eq_refl))).
Defined.

(** X8: alice deletes her event; it is then not found. *)
Lemma deleted_event_witness :
  let body := event_body (Some "alice@x.com") None in
  let db' := (delete_event hex24 Oid id_E body sample_db).1.2 in
  status (delete_event hex24 Oid id_E body sample_db).1.1 = 200%nat
  /\ (get_event hex24 Oid id_E db').1.1
     = {| status := 404; payload := Failure "Event not found." |}.
Proof.
  intros body db'. split; [reflexivity|].
  exact (proj1 (proj2 (deleted_event_is_gone hex24 Oid iso_sample sample_db
                         alice_event id_E body sample_db_ids_unique
                         alice_event_stored id_E_of_alice_event
                         id_E_present eq_refl))).
Defined.

(** X9: erin is synchronised for the first time. *)
Lemma synced_user_witness :
  let body := sync_body (Some "erin@x.com") (Some "Erin") None in
  let synced := sync_user (Oid id_F) 1700000000000 1700000000001 body
                  sample_db in
  ("erin@x.com" ∉ User.email <$> users sample_db)
  /\ get_user "erin@x.com" synced.1.2
     = ({| status := 200;
           payload :=
             UserDoc (view (User.mk (Oid id_F) "erin@x.com" "Erin" EmptyString
                              "user" 1700000000000 1700000000001)
                        (Some 1700000000000)) |},
        synced.1.2, [(users_name, m_findOne)]).
Proof.
  intros body synced.
  assert ("erin@x.com" ∉ User.email <$> users sample_db) as Hnew.
  { intros H. apply elem_of_cons in H as [H|H]; [discriminate|].
    apply list_elem_of_singleton in H. discriminate. }
  assert ("erin@x.com" <> EmptyString) as Hne by discriminate.
  split; [exact Hnew|].
  exact (proj1 (proj2 (proj2 (synced_user_is_fetched sample_db (Oid id_F)
                                1700000000000 1700000000001 body
                                "erin@x.com" eq_refl Hne Hnew)))).
Defined.

Lemma sample_db_users_unique : users_unique sample_db.
Proof.
  unfold users_unique. simpl. apply NoDup_cons. split.
  - intros H. apply list_elem_of_singleton in H. discriminate.
  - apply NoDup_singleton.
Defined.

(** X10: dave is synchronised again. *)
Lemma users_unique_witness :
  users_unique sample_db
  /\ users_unique
       (handle hex24 Oid iso_sample utc_addDays
          (PostUsersSync (Oid id_F) 1700000000000 1700000000001
             (sync_body (Some "dave@x.com") None None)) sample_db).1.2.
Proof.
  split; [exact sample_db_users_unique|].
  exact (users_stay_unique hex24 Oid iso_sample utc_addDays sample_db _
           sample_db_users_unique).
Defined.

Lemma dave_only_db_no_admin : no_admin dave_only_db.
Proof.
  intros u Hu. apply list_elem_of_singleton in Hu. subst u. discriminate.
Defined.

(** X11: dave asks to be made admin. *)
Lemma no_admin_witness :
  no_admin dave_only_db
  /\ no_admin
       (handle hex24 Oid iso_sample utc_addDays
          (PatchUserRole "dave@x.com" 1700000000000
             (role_body (Some "admin") (Some "dave@x.com")))
          dave_only_db).1.2.
Proof.
  split; [exact dave_only_db_no_admin|].
  exact (no_admin_is_ever_made hex24 Oid iso_sample utc_addDays dave_only_db
           _ dave_only_db_no_admin).
Defined.

(** X12: root makes dave an admin. *)
Lemma admin_sets_the_role_witness :
  let body := role_body (Some "admin") (Some "root@x.com") in
  resolves_to_admin (Body.requestorEmail body) sample_db = true
  /\ user_of (Some "dave@x.com") sample_db = Some dave_user
  /\ (set_user_role "dave@x.com" 1700000009000 body sample_db).1.1
     = {| status := 200;
          payload := Done "User role updated successfully." |}.
Proof.
  intros body. split; [reflexivity|]. split; [reflexivity|].
  destruct (admin_sets_the_role sample_db "dave@x.com" "admin" 1700000009000
              body dave_user eq_refl (or_intror eq_refl) eq_refl eq_refl)
    as (i & _ & Heq).
  rewrite Heq. reflexivity.
Defined.

(** X14: carol's joins are only read. *)
Lemma queries_only_read_witness :
  is_query (GetJoined (Some "carol@x.com")) = true
  /\ (handle hex24 Oid iso_sample utc_addDays
        (GetJoined (Some "carol@x.com")) sample_db).1.2 = sample_db.
Proof.
  split; [reflexivity|].
  exact (proj1 (queries_only_read hex24 Oid iso_sample utc_addDays sample_db
                  (GetJoined (Some "carol@x.com")) eq_refl)).
Defined.

(** X16: alice's new event is upcoming. *)
Lemma created_event_is_upcoming_witness :
  let now := 1700000000000 in
  let body := event_body (Some "alice@x.com")
                (Some "2030-01-01T00:00:00.000Z") in
  let created := create_event iso_sample (Oid id_F) now now body sample_db in
  status created.1.1 = 201%nat
  /\ exists doc,
       events created.1.2 = events sample_db ++ [doc]
       /\ doc ∈ events_of (list_upcoming_events now created.1.2).1.1.
Proof.
  intros now body created. split; [reflexivity|].
  destruct (created_event_is_upcoming iso_sample sample_db (Oid id_F) now now
              body eq_refl) as (doc & Hev & _ & Hup).
  exists doc. split; [exact Hev|]. apply Hup. reflexivity.
Defined.

Lemma utc_addDays_forward (now k : Z) : 0 < k -> now < utc_addDays now k.
Proof. unfold utc_addDays. lia. Defined.

(** X17: seeding the sample database. *)
Lemma seeding_witness :
  (forall k, 0 < k -> 0 < utc_addDays 0 k)
  /\ exists docs,
       Event._id <$> docs = batch_id <$> seq 0 18
       /\ forall d, d ∈ docs ->
                    d ∈ events_of
                          (list_upcoming_events 0
                             (seed_demo_events utc_addDays batch_id 0
                                sample_db).1.2).1.1.
Proof.
  split; [exact (utc_addDays_forward 0)|].
  destruct (seeding_appends_upcoming_events utc_addDays sample_db batch_id 0)
    as (docs & _ & Hids & _ & Hup).
  exists docs. split; [exact Hids|]. exact (Hup (utc_addDays_forward 0)).
Defined.

(** X19: alice creates a second event under a new id. *)
Lemma event_ids_witness :
  let r := PostEvents (Oid id_F) 1700000000000 1700000000000
             (event_body (Some "alice@x.com")
                (Some "2030-01-01T00:00:00.000Z")) in
  fresh_for sample_db r /\ ids_unique sample_db
  /\ ids_unique (handle hex24 Oid iso_sample utc_addDays r sample_db).1.2.
Proof.
  intros r. split; [exact id_F_is_new|].
  split; [exact sample_db_ids_unique|].
  exact (event_ids_stay_unique hex24 Oid iso_sample utc_addDays sample_db r
           id_F_is_new sample_db_ids_unique).
Defined.

Lemma sample_db_joins_refer : joins_refer sample_db.
Proof.
  intros j Hj. apply list_elem_of_singleton in Hj. subst j.
  simpl. apply list_elem_of_here.
Defined.

(** X20: alice deletes her event, which carol had joined. *)
Lemma joins_refer_witness :
  let r := DeleteEvent id_E (event_body (Some "alice@x.com") None) in
  joins_refer sample_db
  /\ joins_refer (handle hex24 Oid iso_sample utc_addDays r sample_db).1.2.
Proof.
  intros r. split; [exact sample_db_joins_refer|].
  exact (joins_keep_referring hex24 Oid iso_sample utc_addDays sample_db r
           sample_db_joins_refer).
Defined.

(** X21: no MONGO_URI. *)
Lemma server_witness :
  truthy None = false
  /\ serve hex24 Oid iso_sample utc_addDays None None false GetRoot sample_db
     = ((InitFailure
           {| status := 500;
              payload := Failure "Database initialization failed." |}
           "MONGO_URI is not set in environment variables.", false),
        sample_db, []).
Proof.
  split; [reflexivity|].
  exact (proj1 (server_fails_closed hex24 Oid iso_sample utc_addDays
                  sample_db GetRoot None None) eq_refl).
Defined.

(** X22: alice updates her event and fetches it. *)
Lemma updated_event_witness :
  let now := 1700000000000 in
  let body := event_body (Some "alice@x.com")
                (Some "2030-01-01T00:00:00.000Z") in
  let db' := (update_event hex24 Oid iso_sample id_E now body sample_db).1.2 in
  status (update_event hex24 Oid iso_sample id_E now body sample_db).1.1
  = 200%nat
  /\ exists e',
       (get_event hex24 Oid id_E db').1.1
       = {| status := 200; payload := EventDoc e' |}
       /\ Event.title e' = "Park cleanup, again"
       /\ Event.createdAt e' = Event.createdAt alice_event.
Proof.
  intros now body db'. split; [reflexivity|].
  destruct (updated_event_is_fetched hex24 Oid iso_sample sample_db
              alice_event id_E now body sample_db_ids_unique
              alice_event_stored id_E_of_alice_event eq_refl)
    as (d & _ & _ & Heq).
  eexists. subst db'. rewrite Heq. split; [reflexivity|].
  split; reflexivity.
Defined.
